(** * R&D project sampler: a shallow embedding of [sampling_script.py]

    The script draws a random subset of project names and derives
    documentation-size recommendations from a fixed bucket table.  This
    file embeds class [RDProjectRandomizer] method by method and settles
    the statements made about it.

    Modelling decisions, all visible in the definitions below:
    - Python [int] is [Z]; [len] yields a [nat] that is injected with
      [Z.of_nat] where the source compares it with an [int].
    - Python [str] is [string]; a character stands for a code point in
      U+0000..U+00FF.
    - Every method runs in the monad [Py]: it threads the interpreter
      state (generator state of module [random], text written to
      standard output) and either returns or raises.
    - Module [random] and [pandas.read_excel] are libraries, not code of
      the script: they enter through the interfaces [RandomModule] and
      [ExcelReader].  A reference instance of each (CPython's pool
      algorithm for [random.sample] over a small congruential generator,
      and a one-file disk) shows the interfaces inhabited and lets every
      method be evaluated. *)

From Stdlib Require Import Ascii String.
From stdpp Require Import base option list strings pretty gmap.

Local Open Scope Z_scope.

(** ** Text *)

Module PyStr.

(** [str.isspace] on one character, for code points below 256:
    TAB..CR, FS..US, SPACE, NEL and NBSP. *)
Definition isspace (c : ascii) : bool :=
  let n := nat_of_ascii c in
  ((9 <=? n) && (n <=? 13) || (28 <=? n) && (n <=? 32)
   || (n =? 133) || (n =? 160))%nat.

(** [s.lstrip()] *)
Fixpoint lstrip (s : string) : string :=
  match s with
  | EmptyString => EmptyString
  | String c s' => if isspace c then lstrip s' else s
  end.

(** [s.rstrip()] *)
Fixpoint rstrip (s : string) : string :=
  match s with
  | EmptyString => EmptyString
  | String c s' =>
      match rstrip s' with
      | EmptyString => if isspace c then EmptyString else String c EmptyString
      | r => String c r
      end
  end.

(** [s.strip()]: leading and trailing whitespace removed. *)
Definition strip (s : string) : string := rstrip (lstrip s).

(** Truth value of a string in a condition: non-empty. *)
Definition truthy (s : string) : bool :=
  match s with EmptyString => false | String _ _ => true end.

(** Every character of [s] is whitespace. *)
Fixpoint all_space (s : string) : bool :=
  match s with
  | EmptyString => true
  | String c s' => isspace c && all_space s'
  end.

Definition head (s : string) : option ascii :=
  match s with EmptyString => None | String c _ => Some c end.

Fixpoint last (s : string) : option ascii :=
  match s with
  | EmptyString => None
  | String c EmptyString => Some c
  | String _ s' => last s'
  end.

(** [s] neither starts nor ends with whitespace. *)
Definition trimmed (s : string) : Prop :=
  (∀ c, head s = Some c → isspace c = false) ∧
  (∀ c, last s = Some c → isspace c = false).

(** [str(n)] and [f"{n}"] for an [int]. *)
Definition of_int (n : Z) : string := pretty n.

(** [repr(s)] for a string without quotes, backslashes or control
    characters (the only strings the script ever passes to it). *)
Definition repr_plain (s : string) : string := "'" +:+ s +:+ "'".

(** [", ".join(l)] *)
Fixpoint join_comma (l : list string) : string :=
  match l with
  | [] => ""
  | [s] => s
  | s :: l' => s +:+ ", " +:+ join_comma l'
  end.

(** [repr(l)] for a list of such strings. *)
Definition repr_list (l : list string) : string :=
  "[" +:+ join_comma (repr_plain <$> l) +:+ "]".

End PyStr.

(** ** Raw input values *)

(** A scalar as it arrives in a list argument or in a spreadsheet cell. *)
Inductive scalar : Type :=
  | SStr (s : string)          (* a [str] *)
  | SInt (n : Z)               (* an [int] *)
  | SBool (b : bool)           (* [True] / [False] *)
  | SNone                      (* [None] *)
  | SNaN                       (* the float [nan], pandas' missing cell *)
  | SOther (text : string).    (* any other object, with its [str()] text *)

(** [str(v)] *)
Definition str (v : scalar) : string :=
  match v with
  | SStr s => s
  | SInt n => PyStr.of_int n
  | SBool true => "True"
  | SBool false => "False"
  | SNone => "None"
  | SNaN => "nan"
  | SOther text => text
  end.

(** The comprehension used twice in the script:
    [[str(p).strip() for p in items if str(p).strip()]]. *)
Fixpoint normalize (items : list scalar) : list string :=
  match items with
  | [] => []
  | p :: rest =>
      if PyStr.truthy (PyStr.strip (str p))
      then PyStr.strip (str p) :: normalize rest
      else normalize rest
  end.

(** ** Exceptions and the interpreter monad *)

(** An exception object of class [Exception] or below: its class name
    and [str(e)]. *)
Record exn : Type := Exn { exn_class : string; exn_text : string }.

Inductive outcome (A : Type) : Type :=
  | Ok (a : A)
  | Raise (e : exn).
Arguments Ok {A} a.
Arguments Raise {A} e.

(** ** Library interfaces *)

(** What the script uses of module [random].  [random_seed a] is the
    generator state after [random.seed(a)], which depends on [a] alone.
    [sample pop k g] is [random.sample(pop, k)] run from state [g], for
    [0 <= k <= len(pop)]: a list of [k] entries chosen without
    replacement, each occurrence in [pop] being a separate candidate, and
    the state the call leaves behind. *)
Class RandomModule : Type := {
  rng : Type;
  random_seed : Z → rng;
  sample : list string → nat → rng → list string * rng;
  sample_length pop k g :
    (k ≤ length pop)%nat → length (sample pop k g).1 = k;
  sample_submseteq pop k g :
    (k ≤ length pop)%nat → (sample pop k g).1 ⊆+ pop
}.

(** A parsed sheet: its columns in order, each a header and its cells. *)
Definition dataframe : Type := list (string * list scalar).

(** [pandas.read_excel(path)]: the sheet, or the exception it raises
    (missing file, unreadable file, ...). *)
Class ExcelReader : Type := {
  read_excel : string → outcome dataframe
}.

(** ** Values stored in the dictionaries the script returns *)

(** The dictionary built by [get_recommended_sample_size]; its five keys
    are fixed, so it is a record. *)
Record recommendations : Type := Recommendations {
  total_projects : Z;
  conservative : Z;
  moderate : Z;
  aggressive : Z;
  notes : list string
}.

Inductive value : Type :=
  | VInt (n : Z)
  | VStr (s : string)
  | VStrList (l : list string)
  | VRecs (r : recommendations)
  (* [round(selected / total * 100, 1)], a float; kept as the two
     lengths it is computed from. *)
  | VPercent (selected total : nat).

(** [recs[key]] *)
Definition recs_getitem (recs : recommendations) (key : string) : outcome value :=
  if decide (key = "total_projects") then Ok (VInt (total_projects recs))
  else if decide (key = "conservative") then Ok (VInt (conservative recs))
  else if decide (key = "moderate") then Ok (VInt (moderate recs))
  else if decide (key = "aggressive") then Ok (VInt (aggressive recs))
  else if decide (key = "notes") then Ok (VStrList (notes recs))
  else Raise (Exn "KeyError" (PyStr.repr_plain key)).

(** [f"{v}"] for the values [recs[key]] can yield. *)
Definition format_value (v : value) : string :=
  match v with
  | VInt n => PyStr.of_int n
  | VStr s => s
  | VStrList l => PyStr.repr_list l
  | VRecs _ | VPercent _ _ => ""
  end.

(** ** Sample-size recommendations *)

Definition general_notes : list string :=
  [ "Conservative: Lower audit risk, higher documentation cost";
    "Moderate: Balanced approach, most common selection";
    "Aggressive: Higher audit risk, lower documentation cost";
    "Consider project size, complexity, and credit value when selecting" ].

(** [RDProjectRandomizer.get_recommended_sample_size]; it neither prints
    nor draws, hence a plain function. *)
Definition get_recommended_sample_size (total : Z) : recommendations :=
  if total <=? 10 then
    Recommendations total total total total
      ("Document all projects for small portfolios" :: general_notes)
  else if total <=? 25 then
    Recommendations total (Z.min total 15) (Z.min total 12) (Z.min total 8)
      ("Small portfolio - document majority of projects" :: general_notes)
  else if total <=? 50 then
    Recommendations total (Z.min total 25) (Z.min total 18) (Z.min total 12)
      ("Medium portfolio - 25-50% documentation typical" :: general_notes)
  else if total <=? 100 then
    Recommendations total (Z.min total 35) (Z.min total 25) (Z.min total 15)
      ("Large portfolio - 15-35% documentation common" :: general_notes)
  else if total <=? 200 then
    Recommendations total (Z.min total 50) (Z.min total 35) (Z.min total 20)
      ("Very large portfolio - 10-25% documentation" :: general_notes)
  else
    Recommendations total (Z.min total 75) (Z.min total 50) (Z.min total 30)
      ("Enterprise portfolio - 5-15% documentation may suffice" :: general_notes).

(** The bucket table as the specification prints it: the row of [n] as
    (conservative, moderate, aggressive), for [0 <= n]. *)
Definition table_row (n : Z) : Z * Z * Z :=
  if decide (0 ≤ n ≤ 10) then (n, n, n)
  else if decide (11 ≤ n ≤ 25) then (Z.min n 15, Z.min n 12, Z.min n 8)
  else if decide (26 ≤ n ≤ 50) then (Z.min n 25, Z.min n 18, Z.min n 12)
  else if decide (51 ≤ n ≤ 100) then (Z.min n 35, Z.min n 25, Z.min n 15)
  else if decide (101 ≤ n ≤ 200) then (Z.min n 50, Z.min n 35, Z.min n 20)
  else (Z.min n 75, Z.min n 50, Z.min n 30).

(** The three tier counts of a recommendation, in table order. *)
Definition tiers (r : recommendations) : Z * Z * Z :=
  (conservative r, moderate r, aggressive r).

(** ** Multisets of names *)

(** [l.count(x)] *)
Definition count (x : string) (l : list string) : nat :=
  length (filter (λ y, y = x) l).

(** ** The class [RDProjectRandomizer] *)

Section Randomizer.
Context `{RM : RandomModule} `{XR : ExcelReader}.

(** Interpreter state a run can observe or change. *)
Record world : Type := World {
  gen : rng;                 (* state of the process-wide generator *)
  stdout : list string       (* lines printed so far, oldest first *)
}.

Definition Py (A : Type) : Type := world → outcome A * world.

Definition ret {A} (a : A) : Py A := λ w, (Ok a, w).
Definition raise {A} (e : exn) : Py A := λ w, (Raise e, w).
Definition bind {A B} (c : Py A) (k : A → Py B) : Py B :=
  λ w, match c w with
       | (Ok a, w') => k a w'
       | (Raise e, w') => (Raise e, w')
       end.
(** [try: c  except Exception as e: h e] *)
Definition try_except {A} (c : Py A) (h : exn → Py A) : Py A :=
  λ w, match c w with
       | (Ok a, w') => (Ok a, w')
       | (Raise e, w') => h e w'
       end.
(** Lift a library call that returns or raises without touching the
    state. *)
Definition lift {A} (o : outcome A) : Py A := λ w, (o, w).

Notation "'let!' x ':=' c 'in' k" := (bind c (λ x, k))
  (at level 10, x name, c at level 100, k at level 200).
Notation "c ;; k" := (bind c (λ _, k))
  (at level 100, k at level 200, right associativity).

Definition print (line : string) : Py unit :=
  λ w, (Ok (), World (gen w) (stdout w ++ [line])).

(** [random.seed(a)] *)
Definition seed_generator (a : Z) : Py unit :=
  λ w, (Ok (), World (random_seed a) (stdout w)).

(** [random.sample(population, k)], with the range check the library
    performs before it draws. *)
Definition random_sample (population : list string) (k : Z) : Py (list string) :=
  if decide (0 ≤ k ≤ Z.of_nat (length population)) then
    λ w, let '(chosen, g) := sample population (Z.to_nat k) (gen w) in
         (Ok chosen, World g (stdout w))
  else raise (Exn "ValueError" "Sample larger than population or is negative").

(** Truth value of the [seed] argument: [None] and [0] are false. *)
Definition seed_truthy (seed : option Z) : bool :=
  match seed with
  | None => false
  | Some a => negb (a =? 0)
  end.

(** [RDProjectRandomizer.__init__] *)
Definition init (seed : option Z) : Py unit :=
  if seed_truthy seed then
    match seed with Some a => seed_generator a | None => ret () end
  else ret ().

(** [series.dropna()]: missing cells are [nan] and [None]. *)
Definition is_na (v : scalar) : bool :=
  match v with SNaN | SNone => true | _ => false end.
Definition dropna (cells : list scalar) : list scalar :=
  filter (λ v, is_na v = false) cells.

(** [name in df.columns] *)
Definition has_column (df : dataframe) (name : string) : bool :=
  bool_decide (name ∈ df.*1).

(** The cells [df[name].dropna().tolist()] works on.  For a header
    that occurs once [df[name]] is that column; for a header that occurs
    several times it is a frame, which has no [tolist]; for an absent
    header the lookup itself fails. *)
Definition column (df : dataframe) (name : string) : outcome (list scalar) :=
  match filter (λ c, c.1 = name) df with
  | [] => Raise (Exn "KeyError" (PyStr.repr_plain name))
  | [(_, cells)] => Ok cells
  | _ :: _ :: _ =>
      Raise (Exn "AttributeError"
               "'DataFrame' object has no attribute 'tolist'")
  end.

(** [df.iloc[:, 0]] *)
Definition first_column (df : dataframe) : outcome (list scalar) :=
  match df with
  | [] => Raise (Exn "IndexError" "single positional indexer is out-of-bounds")
  | (_, cells) :: _ => Ok cells
  end.

(** Truth value of the [project_column] argument. *)
Definition column_given (project_column : option string) : option string :=
  match project_column with
  | Some name => if PyStr.truthy name then Some name else None
  | None => None
  end.

(** The diagnostic printed by the [except] clause. *)
Definition error_line (text : string) : string :=
  "Error loading Excel file: " +:+ text.

(** The text of the [ValueError] raised for an unknown column. *)
Definition missing_column_text (name : string) : string :=
  "Column '" +:+ name +:+ "' not found in Excel file".

(** The body of the [try] block of [load_projects_from_excel]. *)
Definition load_body (file_path : string) (project_column : option string)
  : Py (list string) :=
  let! df := lift (read_excel file_path) in
  let! cells :=
    match column_given project_column with
    | Some name =>
        if has_column df name then lift (column df name)
        else raise (Exn "ValueError" (missing_column_text name))
    | None => lift (first_column df)
    end in
  let projects := normalize (dropna cells) in
  print ("Loaded " +:+ PyStr.of_int (Z.of_nat (length projects))
         +:+ " projects from Excel file") ;;
  ret projects.

(** [RDProjectRandomizer.load_projects_from_excel] *)
Definition load_projects_from_excel (file_path : string)
    (project_column : option string) : Py (list string) :=
  try_except (load_body file_path project_column)
    (λ e, print (error_line (exn_text e)) ;; ret []).

Definition warning_line (requested : Z) (available : nat) : string :=
  "Warning: Requested " +:+ PyStr.of_int requested +:+ " projects but only "
  +:+ PyStr.of_int (Z.of_nat available) +:+ " available".

(** [RDProjectRandomizer.select_random_projects] *)
Definition select_random_projects (projects : list string) (num_to_select : Z)
  : Py (list string) :=
  let! num_to_select :=
    if Z.of_nat (length projects) <? num_to_select then
      print (warning_line num_to_select (length projects)) ;;
      ret (Z.of_nat (length projects))
    else ret num_to_select in
  if num_to_select <=? 0 then ret []
  else
    let! selected := random_sample projects num_to_select in
    ret selected.

(** The [input_data] argument, by the run-time type the method tests. *)
Inductive input_data : Type :=
  | InPath (file_path : string)        (* [isinstance(input_data, str)] *)
  | InList (items : list scalar)       (* [isinstance(input_data, list)] *)
  | InOther.                           (* anything else *)

Definition error_result : gmap string value :=
  {[ "error" := VStr "No projects found in input" ]}.

Definition selection_result (projects selected : list string)
    (recs : recommendations) : gmap string value :=
  <["total_projects" := VInt (Z.of_nat (length projects))]>
  (<["selected_count" := VInt (Z.of_nat (length selected))]>
  (<["selected_projects" := VStrList selected]>
  (<["recommendations" := VRecs recs]>
  (<["selection_percentage" := VPercent (length selected) (length projects)]>
   ∅)))).

(** The "load projects" step of [randomize_projects]: the
    [isinstance] dispatch on [input_data]. *)
Definition resolve_input (input : input_data) (project_column : option string)
  : Py (list string) :=
  match input with
  | InPath file_path => load_projects_from_excel file_path project_column
  | InList items =>
      let projects := normalize items in
      print ("Using provided list of "
             +:+ PyStr.of_int (Z.of_nat (length projects)) +:+ " projects") ;;
      ret projects
  | InOther =>
      raise (Exn "ValueError"
               "Input must be either file path (string) or list of projects")
  end.

(** [RDProjectRandomizer.randomize_projects] *)
Definition randomize_projects (input : input_data) (num_to_select : option Z)
    (project_column : option string) (recommendation_level : string)
  : Py (gmap string value) :=
  let! projects := resolve_input input project_column in
  match projects with
  | [] => ret error_result
  | _ :: _ =>
      let recs := get_recommended_sample_size (Z.of_nat (length projects)) in
      let! count :=
        match num_to_select with
        | None =>
            let! v := lift (recs_getitem recs recommendation_level) in
            print ("Using " +:+ recommendation_level +:+ " recommendation: "
                   +:+ format_value v +:+ " projects") ;;
            ret v
        | Some n => ret (VInt n)
        end in
      let! selected :=
        match count with
        | VInt n => select_random_projects projects n
        | _ =>
            (* [num_to_select > len(projects)] on a list *)
            raise (Exn "TypeError"
              "'>' not supported between instances of 'list' and 'int'")
        end in
      ret (selection_result projects selected recs)
  end.

(** One run of the program: construct the randomizer with [seed], then
    select. *)
Definition seeded_run (seed : option Z) (projects : list string)
    (num_to_select : Z) : Py (list string) :=
  bind (init seed) (λ _, select_random_projects projects num_to_select).

End Randomizer.

Arguments world : clear implicits.
Arguments Py : clear implicits.

(** ** The command line: [main] *)

(** The text [f"{x}"] of the float [x = round(selected / total * 100, 1)].
    Floating-point arithmetic is not modelled; the text enters through
    this interface. *)
Class FloatText : Type := {
  percent_text : nat → nat → string
}.

Module Cli.

(** The namespace [parse_args] returns. *)
Record args : Type := Args {
  input : string;              (* positional [input] *)
  number : option Z;           (* [-n/--number] *)
  column : option string;      (* [-c/--column] *)
  level : string;              (* [-l/--level], default ["moderate"] *)
  seed : option Z;             (* [-s/--seed] *)
  list_mode : bool             (* [--list] *)
}.

(** How the calls of [input()] end in [--list] mode: the operator
    presses Ctrl+C ([KeyboardInterrupt]), or the stream is exhausted
    ([EOFError]). *)
Inductive stdin_end : Type := Interrupt | EndOfFile.

(** What is typed at the terminal: the lines [input()] returns, in
    order, and how reading ends. *)
Record terminal : Type := Terminal {
  typed : list string;
  ending : stdin_end
}.

(** ["\n"] *)
Definition nl : string := String (ascii_of_nat 10) EmptyString.

(** [s * n] *)
Fixpoint times (s : string) (n : nat) : string :=
  match n with
  | O => ""
  | S n' => s +:+ times s n'
  end.

(** [f"{i:2d}"]: decimal, right-aligned in two columns. *)
Definition format_2d (i : Z) : string :=
  let s := PyStr.of_int i in
  if (String.length s <? 2)%nat then " " +:+ s else s.

(** [repr(recs)] of a recommendation dictionary. *)
Definition repr_recs (r : recommendations) : string :=
  "{'total_projects': " +:+ PyStr.of_int (total_projects r)
  +:+ ", 'conservative': " +:+ PyStr.of_int (conservative r)
  +:+ ", 'moderate': " +:+ PyStr.of_int (moderate r)
  +:+ ", 'aggressive': " +:+ PyStr.of_int (aggressive r)
  +:+ ", 'notes': " +:+ PyStr.repr_list (notes r) +:+ "}".

(** [v[key]] for a string key. *)
Definition subscript (v : value) (key : string) : outcome value :=
  match v with
  | VRecs r => recs_getitem r key
  | VInt _ => Raise (Exn "TypeError" "'int' object is not subscriptable")
  | VPercent _ _ =>
      Raise (Exn "TypeError" "'float' object is not subscriptable")
  | VStr _ =>
      Raise (Exn "TypeError" "string indices must be integers, not 'str'")
  | VStrList _ =>
      Raise (Exn "TypeError"
               "list indices must be integers or slices, not str")
  end.

(** The characters of a string, each as a string. *)
Fixpoint chars (s : string) : list string :=
  match s with
  | EmptyString => []
  | String c s' => String c EmptyString :: chars s'
  end.

(** The items a [for] loop over [v] visits. *)
Definition iterate (v : value) : outcome (list string) :=
  match v with
  | VStrList l => Ok l
  | VStr s => Ok (chars s)
  | VRecs _ =>
      Ok ["total_projects"; "conservative"; "moderate"; "aggressive"; "notes"]
  | VInt _ => Raise (Exn "TypeError" "'int' object is not iterable")
  | VPercent _ _ => Raise (Exn "TypeError" "'float' object is not iterable")
  end.

Section Main.
Context `{RM : RandomModule} `{XR : ExcelReader} `{FT : FloatText}.

Local Notation "'let!' x ':=' c 'in' k" := (bind c (λ x, k))
  (at level 10, x name, c at level 100, k at level 200).
Local Notation "c ;; k" := (bind c (λ _, k))
  (at level 100, k at level 200, right associativity).

(** [f"{v}"] *)
Definition format_field (v : value) : string :=
  match v with
  | VInt n => PyStr.of_int n
  | VStr s => s
  | VStrList l => PyStr.repr_list l
  | VRecs r => repr_recs r
  | VPercent selected total => percent_text selected total
  end.

(** [result[key]] *)
Definition getitem (result : gmap string value) (key : string) : Py RM value :=
  match result !! key with
  | Some v => ret v
  | None => raise (Exn "KeyError" (PyStr.repr_plain key))
  end.

(** The [while True] loop of [--list] mode, run on the lines typed:
    [project = input().strip()], appended when non-empty. *)
Fixpoint read_loop (lines : list string) (projects : list string)
  : list string :=
  match lines with
  | [] => projects
  | line :: lines' =>
      let project := PyStr.strip line in
      if PyStr.truthy project then read_loop lines' (projects ++ [project])
      else read_loop lines' projects
  end.

(** The inner [try] of [--list] mode: the loop ends with the exception
    [input()] raises; [KeyboardInterrupt] is caught here, [EOFError] is
    not. *)
Definition read_projects (t : terminal) : Py RM (list string) :=
  let projects := read_loop (typed t) [] in
  match ending t with
  | Interrupt =>
      print (nl +:+ "Processing " +:+ PyStr.of_int (Z.of_nat (length projects))
             +:+ " projects...") ;;
      ret projects
  | EndOfFile => raise (Exn "EOFError" "EOF when reading a line")
  end.

(** [for i, project in enumerate(projects, i): print(f"{i:2d}. {project}")] *)
Fixpoint print_numbered (i : Z) (projects : list string) : Py RM unit :=
  match projects with
  | [] => ret ()
  | project :: rest =>
      print (format_2d i +:+ ". " +:+ project) ;;
      print_numbered (i + 1) rest
  end.

(** The bullet, U+2022, lies outside the code points a character stands
    for here; it is held as the bytes of its UTF-8 encoding. *)
Definition bullet : string := "•".

(** [for note in notes: print(f"• {note}")] *)
Fixpoint print_notes (notes : list string) : Py RM unit :=
  match notes with
  | [] => ret ()
  | note :: rest => print (bullet +:+ " " +:+ note) ;; print_notes rest
  end.

(** The "display results" part of [main]. *)
Definition report (result : gmap string value) : Py RM unit :=
  print (nl +:+ times "=" 50) ;;
  print "R&D PROJECT SELECTION RESULTS" ;;
  print (times "=" 50) ;;
  let! total := getitem result "total_projects" in
  print ("Total Projects: " +:+ format_field total) ;;
  let! count := getitem result "selected_count" in
  let! percentage := getitem result "selection_percentage" in
  print ("Selected: " +:+ format_field count
         +:+ " (" +:+ format_field percentage +:+ "%)") ;;
  print (nl +:+ "Selected Projects:") ;;
  print (times "-" 30) ;;
  let! selected := getitem result "selected_projects" in
  let! projects := lift (iterate selected) in
  print_numbered 1 projects ;;
  print (nl +:+ times "=" 50) ;;
  print "DOCUMENTATION RECOMMENDATIONS" ;;
  print (times "=" 50) ;;
  let! recs := getitem result "recommendations" in
  let! c := lift (subscript recs "conservative") in
  print ("Conservative approach: " +:+ format_field c +:+ " projects") ;;
  let! m := lift (subscript recs "moderate") in
  print ("Moderate approach:     " +:+ format_field m +:+ " projects") ;;
  let! a := lift (subscript recs "aggressive") in
  print ("Aggressive approach:   " +:+ format_field a +:+ " projects") ;;
  print (nl +:+ "Notes:") ;;
  let! ns := lift (subscript recs "notes") in
  let! notes := lift (iterate ns) in
  print_notes notes.

(** [main], from the parsed arguments on. *)
Definition main (a : args) (t : terminal) : Py RM unit :=
  init (seed a) ;;
  try_except
    (let! result :=
       if list_mode a then
         print "Enter projects one per line (press Ctrl+C when done):" ;;
         let! projects := read_projects t in
         randomize_projects (InList (SStr <$> projects)) (number a) None
           (level a)
       else
         randomize_projects (InPath (input a)) (number a) (column a)
           (level a) in
     match result !! "error" with
     | Some error => print ("Error: " +:+ format_field error)
     | None => report result
     end)
    (λ e, print ("Error: " +:+ exn_text e)).

End Main.

End Cli.

(** ** Reference instances of the library interfaces *)

(** The list-based branch of CPython's [Random.sample]: copy the
    population into [pool]; in round [i] draw a position [j] below
    [n - i], output [pool[j]] and move [pool[n - i - 1]] into the vacancy.
    The generator enters through [randbelow]. *)
Section PoolSample.
Context {G : Type} (randbelow : nat → G → nat * G).

Fixpoint pool_loop (n i rounds : nat) (pool : list string) (g : G)
  : list string * G :=
  match rounds with
  | O => ([], g)
  | S rounds' =>
      let '(j, g1) := randbelow (n - i)%nat g in
      match pool !! j, pool !! (n - i - 1)%nat with
      | Some x, Some y =>
          let '(rest, g2) := pool_loop n (S i) rounds' (<[j := y]> pool) g1 in
          (x :: rest, g2)
      | _, _ => ([], g1)   (* index out of range: not reached while
                              [randbelow m] stays below [m] *)
      end
  end.

Definition pool_sample (population : list string) (k : nat) (g : G)
  : list string * G :=
  pool_loop (length population) 0 k population g.
End PoolSample.

Module Reference.

(** A linear congruential generator on 31 bits. *)
Definition lcg_next (g : N) : N := ((g * 1103515245 + 12345) mod 2147483648)%N.

Definition lcg_randbelow (n : nat) (g : N) : nat * N :=
  let g' := lcg_next g in
  (N.to_nat ((g' / 65536) mod N.of_nat n)%N, g').

Definition lcg_seed (a : Z) : N := Z.to_N (Z.abs a).

(** A one-file disk. *)
Definition sheet : dataframe :=
  [ ("Project", [SStr "Alpha"; SNaN; SStr " Beta "; SInt 7]);
    ("Owner", [SStr "Ann"; SStr "Bob"; SNone; SStr "Cy"]) ].

Definition disk_read_excel (path : string) : outcome dataframe :=
  if decide (path = "projects.xlsx") then Ok sheet
  else Raise (Exn "FileNotFoundError"
         ("[Errno 2] No such file or directory: " +:+ PyStr.repr_plain path)).

End Reference.

(** * Properties *)

(** ** The reference sampler meets the [random] interface *)

(** Overwriting position [j] with the last live entry and shortening the
    live part by one removes exactly the entry that was at [j]. *)
Lemma vacate_Permutation (l : list string) (j m : nat) (x y : string) :
  l !! j = Some x → l !! m = Some y → (j ≤ m)%nat →
  x :: take m (<[j := y]> l) ≡ₚ take (S m) l.
Proof.
  intros Hj Hm Hle.
  rewrite (take_S_r l m y Hm).
  destruct (decide (j = m)) as [->|Hne].
  - rewrite take_insert_ge by lia.
    assert (x = y) as -> by congruence.
    apply Permutation_cons_append.
  - assert (j < m)%nat as Hlt by lia.
    rewrite take_insert_lt by done.
    assert (take m l !! j = Some x) as Hj' by (by rewrite lookup_take_lt).
    pose proof (lookup_lt_Some _ _ _ Hj') as Hlen.
    rewrite insert_take_drop by done.
    rewrite <- (take_drop_middle (take m l) j x Hj') at 3.
    rewrite <- Permutation_cons_append, <- !Permutation_middle.
    apply perm_swap.
Qed.

Section PoolSampleFacts.
Context {G : Type} (randbelow : nat → G → nat * G).
Hypothesis randbelow_lt : ∀ n g, (0 < n)%nat → ((randbelow n g).1 < n)%nat.

Lemma pool_loop_spec (n rounds i : nat) (pool : list string) (g : G) :
  length pool = n → (i + rounds ≤ n)%nat →
  length (pool_loop randbelow n i rounds pool g).1 = rounds ∧
  (pool_loop randbelow n i rounds pool g).1 ⊆+ take (n - i) pool.
Proof.
  revert i pool g.
  induction rounds as [|rounds IH]; intros i pool g Hlen Hle; simpl.
  - split; [done | apply submseteq_nil_l].
  - pose proof (randbelow_lt (n - i) g ltac:(lia)) as Hj.
    destruct (randbelow (n - i) g) as [j g1]; simpl in Hj.
    destruct (lookup_lt_is_Some_2 pool j ltac:(lia)) as [x Hx].
    destruct (lookup_lt_is_Some_2 pool (n - i - 1) ltac:(lia)) as [y Hy].
    rewrite Hx, Hy.
    destruct (IH (S i) (<[j := y]> pool) g1) as [IHlen IHsub];
      [by rewrite length_insert | lia |].
    destruct (pool_loop randbelow n (S i) rounds (<[j := y]> pool) g1)
      as [rest g2]; simpl in *.
    split; [by rewrite IHlen |].
    replace (n - i)%nat with (S (n - i - 1)) by lia.
    rewrite <- (vacate_Permutation pool j (n - i - 1) x y) by (done || lia).
    apply submseteq_skip.
    by replace (n - i - 1)%nat with (n - S i)%nat by lia.
Qed.

Lemma pool_sample_length (pop : list string) (k : nat) (g : G) :
  (k ≤ length pop)%nat → length (pool_sample randbelow pop k g).1 = k.
Proof. intros Hk. by apply pool_loop_spec. Qed.

Lemma pool_sample_submseteq (pop : list string) (k : nat) (g : G) :
  (k ≤ length pop)%nat → (pool_sample randbelow pop k g).1 ⊆+ pop.
Proof.
  intros Hk.
  destruct (pool_loop_spec (length pop) k 0 pop g eq_refl Hk) as [_ Hsub].
  by rewrite Nat.sub_0_r, take_ge in Hsub.
Qed.
End PoolSampleFacts.

Lemma lcg_randbelow_lt (n : nat) (g : N) :
  (0 < n)%nat → ((Reference.lcg_randbelow n g).1 < n)%nat.
Proof.
  intros Hn. unfold Reference.lcg_randbelow; simpl.
  pose proof (N.mod_upper_bound (Reference.lcg_next g / 65536) (N.of_nat n)
                ltac:(lia)).
  lia.
Qed.

(** Module [random] as the pool sampler over the congruential generator. *)
#[export] Instance reference_random : RandomModule := {|
  rng := N;
  random_seed := Reference.lcg_seed;
  sample := pool_sample Reference.lcg_randbelow;
  sample_length := pool_sample_length _ lcg_randbelow_lt;
  sample_submseteq := pool_sample_submseteq _ lcg_randbelow_lt
|}.

#[export] Instance reference_excel : ExcelReader := {|
  read_excel := Reference.disk_read_excel
|}.

(** A process whose generator starts in state [g] and which has printed
    nothing yet.  Without seeding, [g] is whatever the operating system's
    entropy made it, and differs from run to run. *)
Definition boot (g : N) : world reference_random := World (g : rng) [].

Definition five_projects : list string :=
  ["Apollo"; "Borealis"; "Cascade"; "Dynamo"; "Equinox"].

(** ** Multisets of names *)

Lemma count_submseteq (x : string) (l k : list string) :
  l ⊆+ k → (count x l ≤ count x k)%nat.
Proof.
  unfold count. induction 1 as [|y l k _ IH|y z l|y l k _ IH|l k m _ IH1 _ IH2].
  - done.
  - rewrite !filter_cons. case_decide; simpl; lia.
  - rewrite !filter_cons. repeat case_decide; simpl; lia.
  - rewrite filter_cons. case_decide; simpl; lia.
  - lia.
Qed.

Lemma submseteq_NoDup (l k : list string) : l ⊆+ k → NoDup k → NoDup l.
Proof.
  intros [rest Hperm]%submseteq_Permutation Hk.
  rewrite Hperm in Hk. by apply NoDup_app in Hk as [? _].
Qed.

(** ** Random selection *)

Section Selection.
Context `{RM : RandomModule}.
Implicit Types (P : list string) (K : Z) (w : world RM).

(** A request within range draws [K] entries and prints nothing. *)
Lemma select_in_range P K w :
  0 < K ≤ Z.of_nat (length P) →
  select_random_projects P K w =
    (Ok (sample P (Z.to_nat K) (gen w)).1,
     World (sample P (Z.to_nat K) (gen w)).2 (stdout w)).
Proof.
  intros [Hpos Hle]. unfold select_random_projects, bind, ret, random_sample.
  destruct (Z.ltb_spec (Z.of_nat (length P)) K); [lia|].
  destruct (Z.leb_spec K 0); [lia|].
  rewrite decide_True by lia.
  by destruct (sample P (Z.to_nat K) (gen w)).
Qed.

(** A request above the size of a non-empty list warns, then draws
    [len(P)] entries. *)
Lemma select_above P K w :
  P ≠ [] → Z.of_nat (length P) < K →
  select_random_projects P K w =
    (Ok (sample P (length P) (gen w)).1,
     World (sample P (length P) (gen w)).2
           (stdout w ++ [warning_line K (length P)])).
Proof.
  intros Hne Hlt. unfold select_random_projects, bind, ret, print, random_sample.
  destruct (Z.ltb_spec (Z.of_nat (length P)) K); [|lia]. simpl.
  assert (0 < length P)%nat by (destruct P; [done | simpl; lia]).
  destruct (Z.leb_spec (Z.of_nat (length P)) 0); [lia|].
  rewrite decide_True by lia. simpl. rewrite Nat2Z.id.
  by destruct (sample P (length P) (gen w)).
Qed.

(** A request above the size of the empty list warns and returns the
    empty list. *)
Lemma select_above_empty K w :
  0 < K →
  select_random_projects [] K w =
    (Ok [], World (gen w) (stdout w ++ [warning_line K 0])).
Proof.
  intros Hlt. unfold select_random_projects, bind, ret, print.
  cbn [length]. change (Z.of_nat 0) with 0.
  by destruct (Z.ltb_spec 0 K); [|lia].
Qed.

Lemma select_nonpositive P K w :
  K ≤ 0 → select_random_projects P K w = (Ok [], w).
Proof.
  intros Hle. unfold select_random_projects, bind, ret.
  destruct (Z.ltb_spec (Z.of_nat (length P)) K); [lia|].
  by destruct (Z.leb_spec K 0); [|lia].
Qed.

(** The method never raises, and what it returns is drawn from [P]
    without replacement. *)
Lemma select_total P K w :
  ∃ out w', select_random_projects P K w = (Ok out, w') ∧ out ⊆+ P.
Proof.
  destruct (Z.le_gt_cases K 0) as [Hle|Hpos].
  { eexists _, _. split; [by apply select_nonpositive | apply submseteq_nil_l]. }
  destruct (Z.le_gt_cases K (Z.of_nat (length P))) as [Hin|Habove].
  - eexists _, _. split; [by apply select_in_range |].
    apply sample_submseteq. lia.
  - destruct P as [|p P].
    + eexists _, _. split; [by apply select_above_empty | done].
    + eexists _, _. split; [by apply select_above |].
      by apply sample_submseteq.
Qed.

(** C1, as amended.  For a non-empty list [P] and [0 < K <= len(P)] the
    selection succeeds with exactly [K] entries, each a member of [P];
    no name occurs in it more often than in [P], so the output is free
    of repeats whenever [P] is. *)
Theorem select_random_projects_valid P K w :
  P ≠ [] → 0 < K ≤ Z.of_nat (length P) →
  ∃ out w', select_random_projects P K w = (Ok out, w') ∧
    Z.of_nat (length out) = K ∧
    (∀ x, x ∈ out → x ∈ P) ∧
    (∀ x, (count x out ≤ count x P)%nat) ∧
    (NoDup P → NoDup out).
Proof.
  intros _ HK. eexists _, _. split; [by apply select_in_range |].
  pose proof (sample_length P (Z.to_nat K) (gen w) ltac:(lia)) as Hlen.
  pose proof (sample_submseteq P (Z.to_nat K) (gen w) ltac:(lia)) as Hsub.
  repeat split.
  - rewrite Hlen. lia.
  - intros x Hx. by eapply elem_of_submseteq.
  - intros x. by apply count_submseteq.
  - by apply submseteq_NoDup.
Qed.

(** C4.  A request [K > len(P)] is clamped: the call returns normally
    with exactly [len(P)] entries (a rearrangement of [P]) and its only
    output is the warning line.  A request [K <= 0] returns the empty
    list and prints nothing. *)
Theorem select_random_projects_clamps P K w :
  (Z.of_nat (length P) < K →
     ∃ out g, select_random_projects P K w =
                (Ok out, World g (stdout w ++ [warning_line K (length P)])) ∧
              length out = length P ∧ out ≡ₚ P) ∧
  (K ≤ 0 → select_random_projects P K w = (Ok [], w)).
Proof.
  split; [|apply select_nonpositive].
  intros Habove. destruct P as [|p P].
  - eexists [], _. split; [apply select_above_empty; simpl in *; lia | done].
  - eexists _, _. split; [by apply select_above |].
    pose proof (sample_length (p :: P) _ (gen w) (Nat.le_refl _)) as Hlen.
    pose proof (sample_submseteq (p :: P) _ (gen w) (Nat.le_refl _)) as Hsub.
    split; [done |]. apply submseteq_length_Permutation; [done | lia].
Qed.

(** C9.  For every list [P], duplicates included, and every [K], the
    selection returns normally and its output is multiset-contained in
    [P]: each name occurs in it at most as often as in [P]. *)
Theorem select_random_projects_submultiset P K w :
  ∃ out w', select_random_projects P K w = (Ok out, w') ∧
    out ⊆+ P ∧ ∀ x, (count x out ≤ count x P)%nat.
Proof.
  destruct (select_total P K w) as (out & w' & Hrun & Hsub).
  exists out, w'. repeat split; [done..|].
  intros x. by apply count_submseteq.
Qed.

(** With a seed that the constructor takes as true, the selection does
    not depend on the generator state the process started with. *)
Lemma seeded_run_deterministic (a : Z) P K (g1 g2 : rng) (printed : list string) :
  a ≠ 0 →
  (seeded_run (Some a) P K (World g1 printed)).1 =
  (seeded_run (Some a) P K (World g2 printed)).1.
Proof.
  intros Ha. unfold seeded_run, bind, init, seed_truthy.
  destruct (Z.eqb_spec a 0); [done|]. by simpl.
Qed.

(** C10.  Constructing the randomizer with [seed=0] or [seed=None]
    returns with the interpreter state, generator included, exactly as
    it was, so the two calls are indistinguishable; the generator is
    reseeded only for a seed that is true in a condition. *)
Theorem init_falsy_seed_keeps_generator w :
  init (Some 0) w = (Ok (), w) ∧
  init None w = (Ok (), w) ∧
  init (Some 0) w = init None w ∧
  (∀ seed, (init seed w).2 ≠ w → seed_truthy seed = true).
Proof.
  repeat split; try done.
  intros seed Hchanged. unfold init in Hchanged.
  destruct (seed_truthy seed); done.
Qed.

End Selection.

(** ** Recommendation sizing *)

Ltac unfold_buckets :=
  unfold tiers, get_recommended_sample_size, table_row;
  repeat match goal with
    | |- context [?a <=? ?b] => destruct (Z.leb_spec a b)
    | |- context [decide ?p] => destruct (decide p)
    end; cbn [conservative moderate aggressive total_projects].

(** C2.  For every [N >= 0] the tier counts computed by
    [get_recommended_sample_size] are the row of the bucket table that
    holds [N], upper boundaries included, and the total is echoed; at the
    first boundary, [N = 10] gives 10, 10, 10 and [N = 11] gives
    11, 11, 8. *)
Theorem get_recommended_sample_size_table (N : Z) :
  0 ≤ N →
  tiers (get_recommended_sample_size N) = table_row N ∧
  total_projects (get_recommended_sample_size N) = N ∧
  tiers (get_recommended_sample_size 10) = (10, 10, 10) ∧
  tiers (get_recommended_sample_size 11) = (11, 11, 8).
Proof.
  intros HN. split; [|split; [|done]].
  - unfold_buckets; solve [done | lia].
  - unfold_buckets; done.
Qed.

(** C8.  For every [N >= 0] the tiers are ordered,
    conservative >= moderate >= aggressive, and none exceeds [N]. *)
Theorem get_recommended_sample_size_ordered (N : Z) :
  0 ≤ N →
  let r := get_recommended_sample_size N in
  aggressive r ≤ moderate r ≤ conservative r ∧
  conservative r ≤ N ∧ moderate r ≤ N ∧ aggressive r ≤ N.
Proof.
  intros HN r. subst r. unfold_buckets; lia.
Qed.

(** ** Input normalization *)

Module PyStrFacts.
Import PyStr.

Lemma lstrip_decompose (s : string) :
  ∃ pre, s = pre +:+ lstrip s ∧ all_space pre = true.
Proof.
  induction s as [|c s [pre [Heq Hpre]]]; simpl.
  - by exists "".
  - destruct (isspace c) eqn:Hc.
    + exists (String c pre). split; [|simpl; by rewrite Hc, Hpre].
      change (String c s = String c (pre +:+ lstrip s)). by rewrite <- Heq.
    + by exists "".
Qed.

Lemma lstrip_head (s : string) (c : ascii) :
  head (lstrip s) = Some c → isspace c = false.
Proof.
  induction s as [|d s IH]; simpl; [done|].
  destruct (isspace d) eqn:Hd; [done|]. simpl. congruence.
Qed.

Lemma rstrip_decompose (s : string) :
  ∃ post, s = rstrip s +:+ post ∧ all_space post = true.
Proof.
  induction s as [|c s [post [Heq Hpost]]]; simpl.
  - by exists "".
  - destruct (rstrip s) as [|d r] eqn:Hr.
    + destruct (isspace c) eqn:Hc.
      * exists (String c post). split; [|simpl; by rewrite Hc, Hpost].
        change (String c s = String c ("" +:+ post)). by rewrite <- Heq.
      * exists post. split; [|done].
        change (String c s = String c ("" +:+ post)). by rewrite <- Heq.
    + exists post. split; [|done].
      change (String c s = String c (String d r +:+ post)). by rewrite <- Heq.
Qed.

Lemma rstrip_last (s : string) (c : ascii) :
  last (rstrip s) = Some c → isspace c = false.
Proof.
  induction s as [|d s IH]; simpl; [done|].
  destruct (rstrip s) as [|e r] eqn:Hr.
  - destruct (isspace d) eqn:Hd; simpl; [done | congruence].
  - done.
Qed.

Lemma rstrip_head (s : string) (c : ascii) :
  head (rstrip s) = Some c → head s = Some c.
Proof.
  destruct s as [|d s]; simpl; [done|].
  destruct (rstrip s); [destruct (isspace d)|]; simpl; congruence.
Qed.

Lemma strip_trimmed (s : string) : trimmed (strip s).
Proof.
  split; intros c Hc.
  - by apply rstrip_head, lstrip_head in Hc.
  - by apply rstrip_last in Hc.
Qed.

Lemma strip_decompose (s : string) :
  ∃ pre post, s = pre +:+ strip s +:+ post ∧
    all_space pre = true ∧ all_space post = true.
Proof.
  destruct (lstrip_decompose s) as (pre & Hs & Hpre).
  destruct (rstrip_decompose (lstrip s)) as (post & Hl & Hpost).
  exists pre, post. unfold strip. by rewrite <- Hl.
Qed.

Lemma truthy_nonempty (s : string) : truthy s = true ↔ s ≠ "".
Proof. by destruct s. Qed.

End PyStrFacts.

(** C5.  Normalization maps every raw entry to [str(p).strip()], keeps
    those that are non-empty and keeps them in input order.  Each
    survivor is its entry's text with nothing but surrounding whitespace
    removed: it is non-empty and neither starts nor ends with
    whitespace.  The list ["  Foo  ", "", "Bar", "   "] becomes
    ["Foo", "Bar"]. *)
Theorem normalize_spec (items : list scalar) :
  normalize items
    = filter (λ s, s ≠ "") ((λ p, PyStr.strip (str p)) <$> items) ∧
  normalize items `sublist_of` ((λ p, PyStr.strip (str p)) <$> items) ∧
  Forall (λ s, s ≠ "" ∧ PyStr.trimmed s) (normalize items) ∧
  (∀ p, ∃ pre post, str p = pre +:+ PyStr.strip (str p) +:+ post ∧
          PyStr.all_space pre = true ∧ PyStr.all_space post = true) ∧
  normalize [SStr "  Foo  "; SStr ""; SStr "Bar"; SStr "   "] = ["Foo"; "Bar"].
Proof.
  assert (normalize items
    = filter (λ s, s ≠ "") ((λ p, PyStr.strip (str p)) <$> items)) as Heq.
  { induction items as [|p items IH]; [done|]. cbn [normalize fmap list_fmap].
    rewrite filter_cons, IH.
    destruct (PyStr.strip (str p)) eqn:Hs.
    - by rewrite decide_False by (by intros []).
    - by rewrite decide_True. }
  repeat split.
  - done.
  - rewrite Heq. apply sublist_filter.
  - rewrite Heq. apply Forall_forall. intros s [Hne Hin]%list_elem_of_filter.
    split; [done|]. apply list_elem_of_fmap in Hin as (p & -> & _).
    apply PyStrFacts.strip_trimmed.
  - intros p. apply PyStrFacts.strip_decompose.
Qed.

(** ** Spreadsheet loading and orchestration *)

Section Orchestration.
Context `{RM : RandomModule} `{XR : ExcelReader}.
Implicit Types (w : world RM) (col : option string).

(** The body of the [try] block leaves the generator alone. *)
Lemma load_body_gen path col w : gen (load_body path col w).2 = gen w.
Proof.
  unfold load_body, bind, lift, raise, print, ret.
  destruct (read_excel path) as [df|e]; [|done].
  destruct (column_given col) as [name|].
  - destruct (has_column df name); [|done].
    by destruct (column df name).
  - by destruct (first_column df).
Qed.

Lemma load_gen path col w :
  gen (load_projects_from_excel path col w).2 = gen w.
Proof.
  unfold load_projects_from_excel, try_except.
  pose proof (load_body_gen path col w) as Hgen.
  by destruct (load_body path col w) as [[projects|e] w'].
Qed.

(** Whatever the [try] block does, the method returns a list. *)
Lemma load_returns path col w :
  ∃ projects w', load_projects_from_excel path col w = (Ok projects, w').
Proof.
  unfold load_projects_from_excel, try_except.
  destruct (load_body path col w) as [[projects|e] w']; by eexists _, _.
Qed.

(** An exception raised inside the [try] block becomes an empty list
    and one diagnostic line. *)
Lemma load_catches path col w e w' :
  load_body path col w = (Raise e, w') →
  load_projects_from_excel path col w =
    (Ok [], World (gen w') (stdout w' ++ [error_line (exn_text e)])).
Proof.
  intros Hbody. unfold load_projects_from_excel, try_except.
  by rewrite Hbody.
Qed.

(** The failures the method does turn into an empty list: if the file
    cannot be read, or it can but the column named, by a non-empty name,
    is not among its headers, [load_projects_from_excel] returns the
    empty list normally and prints one diagnostic line carrying the
    cause; and in no case at all does the method raise. *)
Theorem load_projects_from_excel_soft_fail path col w :
  (∀ e, read_excel path = Raise e →
     load_projects_from_excel path col w =
       (Ok [], World (gen w) (stdout w ++ [error_line (exn_text e)]))) ∧
  (∀ df name, read_excel path = Ok df → col = Some name → name ≠ "" →
     name ∉ df.*1 →
     load_projects_from_excel path col w =
       (Ok [], World (gen w)
                 (stdout w ++ [error_line (missing_column_text name)]))) ∧
  (∃ projects w', load_projects_from_excel path col w = (Ok projects, w')).
Proof.
  split; [|split; [|apply load_returns]].
  - intros e Hread. apply (load_catches path col w e w).
    unfold load_body, bind, lift. by rewrite Hread.
  - intros df name Hread -> Hname Hmissing.
    apply (load_catches path (Some name) w
             (Exn "ValueError" (missing_column_text name)) w).
    unfold load_body, bind, lift, raise, column_given. rewrite Hread.
    destruct name as [|c name]; [done|]. cbn [PyStr.truthy].
    unfold has_column. by rewrite bool_decide_eq_false_2.
Qed.

Lemma resolve_input_gen input col w :
  gen (resolve_input input col w).2 = gen w.
Proof.
  destruct input as [path|items|]; [apply load_gen | done..].
Qed.

(** C6.  When the load step yields no project, [randomize_projects]
    returns the dictionary whose single key is ["error"], bound to the
    error text, and stops there: the state it leaves is the one the
    load step left, so nothing was drawn from the generator and nothing
    was printed by the recommendation or selection steps. *)
Theorem randomize_projects_empty input num col level w w1 :
  resolve_input input col w = (Ok [], w1) →
  randomize_projects input num col level w = (Ok error_result, w1) ∧
  gen w1 = gen w ∧
  dom error_result = {["error"]} ∧
  error_result !! "error" = Some (VStr "No projects found in input").
Proof.
  intros Hload. split; [|split; [|split]].
  - unfold randomize_projects, bind. by rewrite Hload.
  - pose proof (resolve_input_gen input col w) as Hgen.
    by rewrite Hload in Hgen.
  - unfold error_result. by rewrite dom_singleton_L.
  - unfold error_result. by rewrite lookup_singleton_eq.
Qed.

End Orchestration.

(** ** The statements at concrete inputs, on the reference instances *)

(** Selecting both entries of a list that holds one name twice returns
    that name twice, whatever the generator. *)
Lemma select_repeated_name_any_generator `{RM : RandomModule} (w : world RM) :
  ∃ w', select_random_projects ["Apollo"; "Apollo"] 2 w
        = (Ok ["Apollo"; "Apollo"], w').
Proof.
  eexists. rewrite select_in_range by (simpl; lia). do 2 f_equal.
  pose proof (sample_length ["Apollo"; "Apollo"] 2 (gen w) (Nat.le_refl _))
    as Hlen.
  pose proof (sample_submseteq ["Apollo"; "Apollo"] 2 (gen w) (Nat.le_refl _))
    as Hsub.
  change (Z.to_nat 2) with 2%nat.
  destruct (sample ["Apollo"; "Apollo"] 2 (gen w)).1 as [|a [|b [|c out]]];
    simpl in Hlen; try lia.
  assert (∀ x, x ∈ ["Apollo"; "Apollo"] → x = "Apollo") as Honly.
  { intros x [->|Hx%list_elem_of_singleton]%elem_of_cons; done. }
  rewrite (Honly a), (Honly b); [done | |].
  - eapply elem_of_submseteq; [|done].
    apply list_elem_of_further, list_elem_of_here.
  - eapply elem_of_submseteq; [|done]. apply list_elem_of_here.
Qed.

(** C1 fails as stated: the list below is non-empty, [K = 2] is within
    range, and the selection holds the same name twice. *)
Lemma select_random_projects_repeats :
  ["Apollo"; "Apollo"] ≠ [] ∧
  0 < 2 ≤ Z.of_nat (length ["Apollo"; "Apollo"]) ∧
  select_random_projects ["Apollo"; "Apollo"] 2 (boot 7)
    = (Ok ["Apollo"; "Apollo"], World (642666333%N : rng) []) ∧
  ¬ NoDup ["Apollo"; "Apollo"].
Proof.
  split; [done|]. split; [simpl; lia|]. split; [by vm_compute|].
  intros [Hnotin _]%NoDup_cons. apply Hnotin, list_elem_of_here.
Qed.

Lemma select_random_projects_valid_witness :
  ∃ out w', select_random_projects five_projects 3 (boot 7) = (Ok out, w') ∧
    Z.of_nat (length out) = 3 ∧
    (∀ x, x ∈ out → x ∈ five_projects) ∧
    (∀ x, (count x out ≤ count x five_projects)%nat) ∧
    (NoDup five_projects → NoDup out).
Proof.
  apply (select_random_projects_valid five_projects 3 (boot 7));
    [done | simpl; lia].
Defined.

Lemma select_random_projects_clamps_witness :
  (∃ out g, select_random_projects five_projects 9 (boot 7) =
              (Ok out, World g (stdout (boot 7) ++ [warning_line 9 5])) ∧
            length out = 5%nat ∧ out ≡ₚ five_projects) ∧
  select_random_projects five_projects (-1) (boot 7) = (Ok [], boot 7).
Proof.
  split.
  - apply (proj1 (select_random_projects_clamps five_projects 9 (boot 7))).
    simpl; lia.
  - apply (proj2 (select_random_projects_clamps five_projects (-1) (boot 7))).
    lia.
Defined.

(** C3 fails at seed 0: the constructor does not reseed, and two runs
    that start from different generator states select differently. *)
Lemma seed_zero_runs_differ :
  (seeded_run (Some 0) five_projects 3 (boot 7)).1 = Ok ["Equinox"; "Cascade"; "Dynamo"] ∧
  (seeded_run (Some 0) five_projects 3 (boot 8)).1 = Ok ["Equinox"; "Apollo"; "Cascade"] ∧
  (seeded_run (Some 0) five_projects 3 (boot 7)).1
    ≠ (seeded_run (Some 0) five_projects 3 (boot 8)).1.
Proof. by vm_compute. Qed.

Lemma init_falsy_seed_keeps_generator_witness :
  init (Some 0) (boot 7) = (Ok (), boot 7) ∧
  init None (boot 7) = (Ok (), boot 7) ∧
  init (Some 0) (boot 7) = init None (boot 7) ∧
  seed_truthy (Some 42) = true.
Proof.
  destruct (init_falsy_seed_keeps_generator (boot 7)) as (H0 & HNone & Hsame & Honly).
  split; [exact H0 | split; [exact HNone | split; [exact Hsame |]]].
  apply (Honly (Some 42)). by vm_compute.
Defined.

Lemma get_recommended_sample_size_table_witness :
  tiers (get_recommended_sample_size 25) = table_row 25 ∧
  total_projects (get_recommended_sample_size 25) = 25 ∧
  tiers (get_recommended_sample_size 10) = (10, 10, 10) ∧
  tiers (get_recommended_sample_size 11) = (11, 11, 8).
Proof. apply (get_recommended_sample_size_table 25). lia. Defined.

Lemma get_recommended_sample_size_ordered_witness :
  let r := get_recommended_sample_size 60 in
  aggressive r ≤ moderate r ≤ conservative r ∧
  conservative r ≤ 60 ∧ moderate r ≤ 60 ∧ aggressive r ≤ 60.
Proof. apply (get_recommended_sample_size_ordered 60). lia. Defined.

Lemma load_projects_from_excel_soft_fail_witness :
  load_projects_from_excel "missing.xlsx" None (boot 7) =
    (Ok [], World (7%N : rng)
       [error_line "[Errno 2] No such file or directory: 'missing.xlsx'"]) ∧
  load_projects_from_excel "projects.xlsx" (Some "Budget") (boot 7) =
    (Ok [], World (7%N : rng) [error_line (missing_column_text "Budget")]).
Proof.
  split.
  - apply (proj1 (load_projects_from_excel_soft_fail
                    "missing.xlsx" None (boot 7))
             (Exn "FileNotFoundError"
                "[Errno 2] No such file or directory: 'missing.xlsx'")).
    reflexivity.
  - apply (proj1 (proj2 (load_projects_from_excel_soft_fail
                           "projects.xlsx" (Some "Budget") (boot 7)))
             Reference.sheet "Budget");
      [reflexivity | reflexivity | done |].
    apply (bool_decide_unpack _). by vm_compute.
Defined.

(** C7 fails for the empty string as column name.  No column of the
    sheet carries that name, so the named column does not exist; yet
    the call returns the cells of the first column and reports a
    successful load, where the claim has an empty list and a
    diagnostic. *)
Lemma load_empty_column_name_loads_first_column :
  read_excel "projects.xlsx" = Ok Reference.sheet ∧
  "" ∉ Reference.sheet.*1 ∧
  load_projects_from_excel "projects.xlsx" (Some "") (boot 7) =
    (Ok ["Alpha"; "Beta"; "7"],
     World (7%N : rng) ["Loaded 3 projects from Excel file"]).
Proof.
  split; [done|]. split; [|by vm_compute].
  apply (bool_decide_unpack _). by vm_compute.
Qed.

Lemma randomize_projects_empty_witness :
  randomize_projects (InList [SStr "   "; SStr ""; SStr " "]) (Some 2) None "moderate"
      (boot 7)
    = (Ok error_result, World (7%N : rng) ["Using provided list of 0 projects"]) ∧
  randomize_projects (InPath "missing.xlsx") None None "moderate" (boot 7)
    = (Ok error_result,
       World (7%N : rng)
         [error_line "[Errno 2] No such file or directory: 'missing.xlsx'"]).
Proof.
  split.
  - apply (randomize_projects_empty (InList [SStr "   "; SStr ""; SStr " "])
             (Some 2) None "moderate" (boot 7)).
    reflexivity.
  - apply (randomize_projects_empty (InPath "missing.xlsx")
             None None "moderate" (boot 7)).
    reflexivity.
Defined.

(** The script's own example: ten projects, seed 42, the moderate tier.
    Ten or fewer projects are all selected; their order is the one the
    reference generator produces. *)
Definition sample_projects : list string :=
  [ "AI Chatbot Development"; "Database Optimization Engine";
    "Mobile App Security Framework"; "IoT Sensor Network";
    "Machine Learning Model Training"; "Cloud Migration Tool";
    "API Gateway Enhancement"; "Blockchain Integration";
    "Data Analytics Dashboard"; "Automated Testing Suite" ].

Example script_example :
  let run :=
    bind (init (Some 42))
         (λ _, randomize_projects (InList (SStr <$> sample_projects))
                 None None "moderate") (boot 7) in
  match run.1 with
  | Ok result =>
      result !! "total_projects" = Some (VInt 10) ∧
      result !! "selected_count" = Some (VInt 10) ∧
      result !! "selected_projects" = Some (VStrList
        [ "Database Optimization Engine"; "Cloud Migration Tool";
          "Data Analytics Dashboard"; "Mobile App Security Framework";
          "API Gateway Enhancement"; "IoT Sensor Network";
          "Automated Testing Suite"; "Machine Learning Model Training";
          "Blockchain Integration"; "AI Chatbot Development" ]) ∧
      result !! "selection_percentage" = Some (VPercent 10 10) ∧
      result !! "error" = None
  | Raise _ => False
  end ∧
  stdout run.2 = [ "Using provided list of 10 projects";
                   "Using moderate recommendation: 10 projects" ].
Proof. by vm_compute. Qed.

(** * Further properties of the script *)

(** ** Normalization, continued *)

Module PyStrMore.
Import PyStr.

Lemma lstrip_empty_iff (s : string) : lstrip s = "" ↔ all_space s = true.
Proof.
  induction s as [|c s IH]; simpl; [done|].
  destruct (isspace c); simpl; [done|]. split; discriminate.
Qed.

Lemma rstrip_empty_iff (s : string) : rstrip s = "" ↔ all_space s = true.
Proof.
  induction s as [|c s IH]; simpl; [done|].
  destruct (rstrip s) as [|d r].
  - destruct (isspace c); simpl; [tauto|]. split; discriminate.
  - split; [discriminate|].
    intros [_ Hs]%andb_true_iff. by apply IH in Hs.
Qed.

Lemma lstrip_all_space (s : string) :
  all_space (lstrip s) = all_space s.
Proof.
  induction s as [|c s IH]; simpl; [done|].
  destruct (isspace c) eqn:Hc; simpl; [done|]. by rewrite Hc.
Qed.

(** Stripping yields the empty string exactly for a string made of
    whitespace only (the empty string included). *)
Lemma strip_empty_iff (s : string) : strip s = "" ↔ all_space s = true.
Proof. unfold strip. by rewrite rstrip_empty_iff, lstrip_all_space. Qed.

Lemma lstrip_fixed (s : string) :
  (∀ c, head s = Some c → isspace c = false) → lstrip s = s.
Proof.
  destruct s as [|c s]; simpl; [done|].
  intros Hhead. by rewrite (Hhead c eq_refl).
Qed.

Lemma rstrip_fixed (s : string) :
  (∀ c, last s = Some c → isspace c = false) → rstrip s = s.
Proof.
  induction s as [|c s IH]; [done|]. intros Hlast.
  destruct s as [|d s].
  - simpl. by rewrite (Hlast c eq_refl).
  - change (rstrip (String c (String d s)))
      with (match rstrip (String d s) with
            | "" => if isspace c then "" else String c ""
            | r => String c r
            end).
    by rewrite IH.
Qed.

Lemma strip_fixed (s : string) : trimmed s → strip s = s.
Proof.
  intros [Hhead Hlast]. unfold strip.
  rewrite lstrip_fixed by done. by apply rstrip_fixed.
Qed.

Lemma strip_idempotent (s : string) : strip (strip s) = strip s.
Proof. apply strip_fixed, PyStrFacts.strip_trimmed. Qed.

Lemma truthy_strip (s : string) :
  truthy (strip s) = negb (all_space s).
Proof.
  destruct (all_space s) eqn:Hs.
  - apply strip_empty_iff in Hs. by rewrite Hs.
  - destruct (strip s) eqn:Hstrip; [|done].
    apply strip_empty_iff in Hstrip. congruence.
Qed.

End PyStrMore.

Lemma normalize_Forall (items : list scalar) :
  Forall (λ s, s ≠ "" ∧ PyStr.trimmed s) (normalize items).
Proof.
  induction items as [|p items IH]; simpl; [done|].
  destruct (PyStr.strip (str p)) eqn:Hs; simpl; [done|].
  constructor; [|done]. split; [done|].
  rewrite <- Hs. apply PyStrFacts.strip_trimmed.
Qed.

(** Names that are non-empty and trimmed pass through unchanged. *)
Lemma normalize_normalized (names : list string) :
  Forall (λ s, s ≠ "" ∧ PyStr.trimmed s) names →
  normalize (SStr <$> names) = names.
Proof.
  induction 1 as [|name names [Hne Htrim] _ IH]; [done|].
  cbn [fmap list_fmap normalize str].
  rewrite PyStrMore.strip_fixed by done.
  destruct name; [done|]. simpl. by f_equal.
Qed.

(** X1.  Normalizing is idempotent: feeding the names it produced back
    in (as [main] does in [--list] mode, where the lines are stripped
    and filtered before [randomize_projects] strips and filters them
    again) changes nothing. *)
Theorem normalize_idempotent (items : list scalar) :
  normalize (SStr <$> normalize items) = normalize items.
Proof. apply normalize_normalized, normalize_Forall. Qed.

(** X2.  An entry is dropped exactly when its text consists of
    whitespace only (or is empty); every other entry survives, stripped.
    So the result is never longer than the input, and has the same
    length precisely when no entry is blank. *)
Theorem normalize_drops_blank (items : list scalar) :
  normalize items
    = (λ p, PyStr.strip (str p))
        <$> filter (λ p, PyStr.all_space (str p) = false) items ∧
  (length (normalize items) ≤ length items)%nat ∧
  (length (normalize items) = length items
     ↔ Forall (λ p, PyStr.all_space (str p) = false) items).
Proof.
  assert (normalize items
    = (λ p, PyStr.strip (str p))
        <$> filter (λ p, PyStr.all_space (str p) = false) items) as Heq.
  { induction items as [|p items IH]; [done|]. simpl.
    rewrite filter_cons, PyStrMore.truthy_strip.
    destruct (PyStr.all_space (str p)) eqn:Hp; simpl; [done | by f_equal]. }
  split; [done|]. rewrite Heq, length_fmap.
  split; [apply length_filter|].
  split.
  - intros Hlen. apply Forall_forall. intros p Hp.
    destruct (PyStr.all_space (str p)) eqn:Hsp; [|done].
    exfalso. revert Hlen Hp. clear Heq.
    induction items as [|q items IH]; [by intros _ ?%elem_of_nil|].
    rewrite filter_cons. intros Hlen [->|Hin]%elem_of_cons.
    + rewrite decide_False in Hlen by congruence.
      pose proof (length_filter (λ p, PyStr.all_space (str p) = false) items).
      simpl in Hlen. lia.
    + destruct (decide (PyStr.all_space (str q) = false)); simpl in Hlen.
      * apply IH; [lia | done].
      * pose proof (length_filter (λ p, PyStr.all_space (str p) = false) items).
        lia.
  - intros Hall. f_equal. clear Heq.
    induction Hall as [|q items Hq _ IH]; [done|].
    rewrite filter_cons, decide_True by done. by f_equal.
Qed.

(** X3.  Missing values are treated differently on the two input paths.
    In a list argument [None] and [nan] are converted like anything else
    and stay in the project set as the names ["None"] and ["nan"]; in a
    spreadsheet column [dropna] removes them before they are converted. *)
Theorem missing_values_list_versus_sheet (items : list scalar) :
  normalize (SNone :: items) = "None" :: normalize items ∧
  normalize (SNaN :: items) = "nan" :: normalize items ∧
  normalize (dropna (SNone :: items)) = normalize (dropna items) ∧
  normalize (dropna (SNaN :: items)) = normalize (dropna items) ∧
  Forall (λ v, v ≠ SNone ∧ v ≠ SNaN) (dropna items).
Proof.
  split; [done|]. split; [done|]. split; [done|]. split; [done|].
  apply Forall_forall. intros v [Hna _]%list_elem_of_filter.
  by destruct v.
Qed.

(** ** Recommendation sizing, continued *)

(** X4.  The conservative and the moderate count never decrease when the
    portfolio grows.  The aggressive count does not decrease either
    within [N <= 10] and from [N = 11] on, but it drops from 10 to 8
    when the portfolio grows from 10 to 11 projects. *)
Theorem recommendations_monotone (N1 N2 : Z) :
  N1 ≤ N2 →
  conservative (get_recommended_sample_size N1)
    ≤ conservative (get_recommended_sample_size N2) ∧
  moderate (get_recommended_sample_size N1)
    ≤ moderate (get_recommended_sample_size N2) ∧
  (N2 ≤ 10 ∨ 11 ≤ N1 →
   aggressive (get_recommended_sample_size N1)
     ≤ aggressive (get_recommended_sample_size N2)) ∧
  aggressive (get_recommended_sample_size 11)
    < aggressive (get_recommended_sample_size 10).
Proof.
  intros Hle. split; [|split; [|split; [|done]]].
  all: unfold_buckets; lia.
Qed.

(** X5.  For a non-empty portfolio every tier recommends at least one
    project, and whatever its size no more than 75, 50 and 30 projects
    are recommended. *)
Theorem recommendations_bounds (N : Z) :
  1 ≤ N →
  let r := get_recommended_sample_size N in
  1 ≤ aggressive r ≤ 30 ∧ 1 ≤ moderate r ≤ 50 ∧ 1 ≤ conservative r ≤ 75.
Proof. intros HN r. subst r. unfold_buckets; lia. Qed.

(** X6.  From 26 projects on, the [min] in the table never selects [N]:
    the tier counts are the constants of the bucket. *)
Theorem recommendations_constant_from_26 (N : Z) :
  26 ≤ N →
  tiers (get_recommended_sample_size N) =
    if N <=? 50 then (25, 18, 12)
    else if N <=? 100 then (35, 25, 15)
    else if N <=? 200 then (50, 35, 20)
    else (75, 50, 30).
Proof.
  intros HN. unfold_buckets; try lia.
  all: rewrite !Z.min_r by lia; done.
Qed.

(** X7.  Every recommendation carries exactly five notes: one for the
    bucket, then the four general notes.  The bucket note identifies the
    bucket: two totals get the same first note exactly when they lie in
    the same row of the table.  The total is echoed as given. *)
Theorem recommendations_notes (N M : Z) :
  let r := get_recommended_sample_size N in
  length (notes r) = 5%nat ∧
  drop 1 (notes r) = general_notes ∧
  total_projects r = N ∧
  (head (notes (get_recommended_sample_size M)) = head (notes r) ↔
     (M ≤ 10 ↔ N ≤ 10) ∧ (M ≤ 25 ↔ N ≤ 25) ∧ (M ≤ 50 ↔ N ≤ 50) ∧
     (M ≤ 100 ↔ N ≤ 100) ∧ (M ≤ 200 ↔ N ≤ 200)).
Proof.
  intros r. subst r. split; [|split; [|split]].
  - unfold_buckets; done.
  - unfold_buckets; done.
  - unfold_buckets; done.
  - unfold get_recommended_sample_size.
    repeat match goal with
      | |- context [?a <=? ?b] => destruct (Z.leb_spec a b)
      end; cbn [notes head];
      (split; [intros Heq; first [lia | discriminate Heq] | intros; first [done | lia]]).
Qed.

(** ** Random selection, continued *)

Section SelectionMore.
Context `{RM : RandomModule}.
Implicit Types (P : list string) (K : Z) (w : world RM).

Lemma world_eta w : World (gen w) (stdout w) = w.
Proof. by destruct w. Qed.

(** Everything [select_random_projects] does, case by case. *)
Lemma select_shape P K w :
  ∃ out g,
    select_random_projects P K w =
      (Ok out,
       World g (stdout w ++
                if Z.of_nat (length P) <? K
                then [warning_line K (length P)] else [])) ∧
    Z.of_nat (length out) = Z.max 0 (Z.min K (Z.of_nat (length P))) ∧
    out ⊆+ P ∧
    (K ≤ 0 ∨ P = [] → out = [] ∧ g = gen w) ∧
    (out, g) =
      (if (0 <? K) && negb (bool_decide (P = []))
       then sample P (Z.to_nat (Z.min K (Z.of_nat (length P)))) (gen w)
       else ([], gen w)).
Proof.
  destruct (Z.le_gt_cases K 0) as [Hle|Hpos].
  { exists [], (gen w). rewrite select_nonpositive by done.
    destruct (Z.ltb_spec (Z.of_nat (length P)) K); [lia|].
    destruct (Z.ltb_spec 0 K); [lia|].
    rewrite app_nil_r, world_eta. simpl.
    split; [done|]. split; [lia|]. split; [apply submseteq_nil_l | done]. }
  destruct (Z.ltb_spec 0 K); [|lia]. simpl.
  destruct (Z.le_gt_cases K (Z.of_nat (length P))) as [Hin|Habove].
  - eexists _, _. rewrite select_in_range by lia.
    destruct (Z.ltb_spec (Z.of_nat (length P)) K); [lia|].
    rewrite app_nil_r. split; [done|].
    rewrite sample_length by lia.
    assert (P ≠ []) by (intros ->; simpl in *; lia).
    rewrite bool_decide_eq_false_2 by done. simpl.
    rewrite Z.min_l by lia.
    split; [lia|]. split; [apply sample_submseteq; lia|].
    split; [intros [?|?]; done || lia|]. by destruct (sample _ _ _).
  - destruct (Z.ltb_spec (Z.of_nat (length P)) K); [|lia].
    destruct P as [|p P].
    + exists [], (gen w). rewrite select_above_empty by lia.
      simpl. split; [done|]. split; [lia|]. done.
    + eexists _, _. rewrite select_above by (done || lia).
      split; [done|]. rewrite sample_length by done.
      rewrite bool_decide_eq_false_2 by done. simpl negb.
      rewrite Z.min_r by lia. rewrite Nat2Z.id.
      split; [lia|]. split; [by apply sample_submseteq|].
      split; [intros [?|?]; done || lia|]. by destruct (sample _ _ _).
Qed.

(** X8.  [select_random_projects] always returns, with exactly
    [max(0, min(K, len(P)))] entries; it prints one line, the warning,
    when [K > len(P)] and nothing otherwise. *)
Theorem select_random_projects_length P K w :
  ∃ out g,
    select_random_projects P K w =
      (Ok out,
       World g (stdout w ++
                if Z.of_nat (length P) <? K
                then [warning_line K (length P)] else [])) ∧
    Z.of_nat (length out) = Z.max 0 (Z.min K (Z.of_nat (length P))).
Proof.
  destruct (select_shape P K w) as (out & g & Hrun & Hlen & _).
  by exists out, g.
Qed.

(** X9.  When there is nothing to select, because [K <= 0] or because
    the list is empty, the result is empty and the generator is left in
    the state it was in: no random number is consumed. *)
Theorem select_random_projects_no_draw P K w :
  K ≤ 0 ∨ P = [] →
  ∃ w', select_random_projects P K w = (Ok [], w') ∧ gen w' = gen w.
Proof.
  intros Hnone.
  destruct (select_shape P K w) as (out & g & Hrun & _ & _ & Hdraw & _).
  destruct (Hdraw Hnone) as [-> ->]. by eexists.
Qed.

(** What the selection returns depends on the generator state alone, not
    on what has been printed before. *)
Lemma select_outcome_stdout P K (g : rng) (printed1 printed2 : list string) :
  (select_random_projects P K (World g printed1)).1 =
  (select_random_projects P K (World g printed2)).1 ∧
  gen (select_random_projects P K (World g printed1)).2 =
  gen (select_random_projects P K (World g printed2)).2.
Proof.
  destruct (select_shape P K (World g printed1))
    as (out1 & g1 & -> & _ & _ & _ & Hdef1).
  destruct (select_shape P K (World g printed2))
    as (out2 & g2 & -> & _ & _ & _ & Hdef2).
  simpl in *. rewrite <- Hdef2 in Hdef1. by simplify_eq.
Qed.

Lemma init_seeded (a : Z) w :
  a ≠ 0 → init (Some a) w = (Ok (), World (random_seed a) (stdout w)).
Proof.
  intros Ha. unfold init, seed_truthy.
  by destruct (Z.eqb_spec a 0).
Qed.

(** X10.  The generator is process-wide: constructing a randomizer again
    with the same non-zero seed rewinds it, so a second seeded run in the
    same process repeats the selection of the first. *)
Theorem seeded_run_replays (a : Z) P K w :
  a ≠ 0 →
  ∃ out w1 w2,
    seeded_run (Some a) P K w = (Ok out, w1) ∧
    seeded_run (Some a) P K w1 = (Ok out, w2).
Proof.
  intros Ha. unfold seeded_run, bind. rewrite init_seeded by done.
  destruct (select_shape P K (World (random_seed a) (stdout w)))
    as (out & g & Hrun & _ & _ & _ & Hdef). rewrite Hrun.
  eexists out, _, _. split; [done|].
  rewrite init_seeded by done. cbn [stdout].
  destruct (select_shape P K (World (random_seed a)
    (stdout w ++ (if Z.of_nat (length P) <? K
                  then [warning_line K (length P)] else []))))
    as (out2 & g2 & Hrun2 & _ & _ & _ & Hdef2). rewrite Hrun2.
  cbn [gen] in Hdef, Hdef2. rewrite <- Hdef in Hdef2. by simplify_eq.
Qed.

End SelectionMore.

(** ** Spreadsheet loading, continued *)

(** The line printed after a successful load. *)
Definition loaded_line (n : nat) : string :=
  "Loaded " +:+ PyStr.of_int (Z.of_nat n) +:+ " projects from Excel file".

Lemma filter_header_absent (df : list (string * list scalar)) (name : string) :
  name ∉ df.*1 → filter (λ c, c.1 = name) df = [].
Proof.
  induction df as [|[h c] df IH]; [done|].
  intros [Hne Hdf]%not_elem_of_cons. simpl in Hne.
  rewrite filter_cons, decide_False by (simpl; congruence). by apply IH.
Qed.

Lemma column_found (pre post : dataframe) (name : string) (cells : list scalar) :
  name ∉ pre.*1 → name ∉ post.*1 →
  column (pre ++ (name, cells) :: post) name = Ok cells ∧
  has_column (pre ++ (name, cells) :: post) name = true.
Proof.
  intros Hpre Hpost. split.
  - unfold column, dataframe in *.
    rewrite filter_app, filter_cons, decide_True by done.
    by rewrite !filter_header_absent.
  - unfold has_column. apply bool_decide_eq_true_2.
    rewrite fmap_app, elem_of_app. right. simpl. apply list_elem_of_here.
Qed.

Section LoadingMore.
Context `{RM : RandomModule} `{XR : ExcelReader}.
Implicit Types (w : world RM) (col : option string).

(** The load when the sheet is read and a column is picked. *)
Lemma load_picked path col w df cells :
  read_excel path = Ok df →
  match column_given col with
  | Some name => has_column df name = true ∧ column df name = Ok cells
  | None => first_column df = Ok cells
  end →
  load_projects_from_excel path col w =
    (Ok (normalize (dropna cells)),
     World (gen w)
           (stdout w ++ [loaded_line (length (normalize (dropna cells)))])).
Proof.
  intros Hread Hpick.
  unfold load_projects_from_excel, try_except, load_body, bind, lift, print, ret.
  rewrite Hread. destruct (column_given col) as [name|].
  - destruct Hpick as [-> ->]. done.
  - by rewrite Hpick.
Qed.

(** X11.  When the sheet can be read and exactly one of its columns
    carries the given non-empty name, the result is the normalized text
    of that column's cells, missing cells ([nan], [None]) skipped, in
    sheet order.  One line is printed, carrying the number of names
    returned. *)
Theorem load_projects_from_excel_named path w (pre post : dataframe)
    (name : string) (cells : list scalar) :
  read_excel path = Ok (pre ++ (name, cells) :: post) →
  name ≠ "" → name ∉ pre.*1 → name ∉ post.*1 →
  load_projects_from_excel path (Some name) w =
    (Ok (normalize (dropna cells)),
     World (gen w)
           (stdout w ++ [loaded_line (length (normalize (dropna cells)))])).
Proof.
  intros Hread Hname Hpre Hpost.
  apply (load_picked path (Some name) w _ cells Hread).
  destruct (column_found pre post name cells Hpre Hpost) as [Hcolumn Hhas].
  by destruct name.
Qed.

(** X12.  Without a column name, and likewise with the empty string as
    column name, the first column of the sheet is loaded; a sheet
    without any column gives the empty list and a diagnostic instead. *)
Theorem load_projects_from_excel_first_column path col w :
  col = None ∨ col = Some "" →
  (∀ header cells rest,
     read_excel path = Ok ((header, cells) :: rest) →
     load_projects_from_excel path col w =
       (Ok (normalize (dropna cells)),
        World (gen w)
          (stdout w ++ [loaded_line (length (normalize (dropna cells)))]))) ∧
  (read_excel path = Ok [] →
     ∃ e, load_projects_from_excel path col w =
       (Ok [], World (gen w) (stdout w ++ [error_line (exn_text e)]))).
Proof.
  intros Hcol.
  assert (column_given col = None) as Hgiven by (by destruct Hcol as [->| ->]).
  split.
  - intros header cells rest Hread.
    apply (load_picked path col w _ cells Hread). by rewrite Hgiven.
  - intros Hread. eexists.
    apply (load_catches path col w _ w).
    unfold load_body, bind, lift. by rewrite Hread, Hgiven.
Qed.

(** Everything [load_projects_from_excel] can do. *)
Lemma load_shape path col w :
  ∃ projects line,
    load_projects_from_excel path col w =
      (Ok projects, World (gen w) (stdout w ++ [line])) ∧
    Forall (λ s, s ≠ "" ∧ PyStr.trimmed s) projects ∧
    (line = loaded_line (length projects) ∨
     projects = [] ∧ ∃ e, line = error_line (exn_text e)).
Proof.
  unfold load_projects_from_excel, try_except, load_body, bind, lift, raise,
    print, ret.
  destruct (read_excel path) as [df|e].
  - destruct (column_given col) as [name|].
    + destruct (has_column df name).
      * destruct (column df name) as [cells|e].
        -- eexists _, _. split; [done|].
           split; [apply normalize_Forall | by left].
        -- eexists [], _. split; [done|]. split; [done|]. right. eauto.
      * eexists [], _. split; [done|]. split; [done|]. right. eauto.
    + destruct (first_column df) as [cells|e].
      * eexists _, _. split; [done|].
        split; [apply normalize_Forall | by left].
      * eexists [], _. split; [done|]. split; [done|]. right. eauto.
  - eexists [], _. split; [done|]. split; [done|]. right. eauto.
Qed.

(** X13.  Whatever the file and the column, [load_projects_from_excel]
    returns normally, leaves the generator alone and prints exactly one
    line: either the count of the names it returns, or a diagnostic, and
    then it returns no name.  The names it returns are never empty and
    never start or end with whitespace. *)
Theorem load_projects_from_excel_shape path col w :
  ∃ projects line,
    load_projects_from_excel path col w =
      (Ok projects, World (gen w) (stdout w ++ [line])) ∧
    Forall (λ s, s ≠ "" ∧ PyStr.trimmed s) projects ∧
    (line = loaded_line (length projects) ∨
     projects = [] ∧ ∃ e, line = error_line (exn_text e)).
Proof. apply load_shape. Qed.

End LoadingMore.

(** ** Orchestration, continued *)

(** The line printed when the count comes from a recommendation. *)
Definition using_line (level : string) (count : Z) : string :=
  "Using " +:+ level +:+ " recommendation: " +:+ PyStr.of_int count
  +:+ " projects".

(** The line printed for a list argument. *)
Definition provided_line (n : nat) : string :=
  "Using provided list of " +:+ PyStr.of_int (Z.of_nat n) +:+ " projects".

(** The three tier names, which are the documented levels and the only
    ones the command line accepts. *)
Definition tier_names : list string := ["conservative"; "moderate"; "aggressive"].

(** The keys of the dictionary returned for a non-empty project set. *)
Definition selection_keys : gset string :=
  {[ "total_projects"; "selected_count"; "selected_projects";
     "recommendations"; "selection_percentage" ]}.

Lemma selection_result_lookup (projects selected : list string)
    (recs : recommendations) :
  let result := selection_result projects selected recs in
  result !! "total_projects" = Some (VInt (Z.of_nat (length projects))) ∧
  result !! "selected_count" = Some (VInt (Z.of_nat (length selected))) ∧
  result !! "selected_projects" = Some (VStrList selected) ∧
  result !! "recommendations" = Some (VRecs recs) ∧
  result !! "selection_percentage"
    = Some (VPercent (length selected) (length projects)) ∧
  result !! "error" = None ∧
  dom result = selection_keys.
Proof.
  unfold selection_result, selection_keys. repeat split.
Qed.

Lemma tier_getitem (recs : recommendations) (level : string) :
  level ∈ tier_names →
  ∃ c, recs_getitem recs level = Ok (VInt c) ∧
       (level = "conservative" ∧ c = conservative recs ∨
        level = "moderate" ∧ c = moderate recs ∨
        level = "aggressive" ∧ c = aggressive recs).
Proof.
  unfold tier_names. rewrite !elem_of_cons, elem_of_nil.
  intros [->|[->|[->|[]]]]; eexists; (split; [done|]); tauto.
Qed.

Section OrchestrationMore.
Context `{RM : RandomModule} `{XR : ExcelReader}.
Implicit Types (w : world RM) (col : option string) (projects : list string).

(** The load step raises for no input other than [InOther], prints one
    line and leaves the generator alone. *)
Lemma resolve_shape input col w :
  input ≠ InOther →
  ∃ projects line,
    resolve_input input col w = (Ok projects, World (gen w) (stdout w ++ [line])) ∧
    Forall (λ s, s ≠ "" ∧ PyStr.trimmed s) projects.
Proof.
  intros Hinput. destruct input as [path|items|]; [| |done].
  - destruct (load_shape path col w) as (projects & line & Hload & Hnames & _).
    by exists projects, line.
  - eexists _, _. split; [done | apply normalize_Forall].
Qed.

(** With an explicit count, a non-empty project set goes straight to the
    selection. *)
Lemma randomize_explicit input (n : Z) col level w projects w1 :
  resolve_input input col w = (Ok projects, w1) → projects ≠ [] →
  randomize_projects input (Some n) col level w =
    match select_random_projects projects n w1 with
    | (Ok selected, w2) =>
        (Ok (selection_result projects selected
               (get_recommended_sample_size (Z.of_nat (length projects)))), w2)
    | (Raise e, w2) => (Raise e, w2)
    end.
Proof.
  intros Hload Hne. unfold randomize_projects, bind at 1. rewrite Hload.
  destruct projects as [|p projects]; [done|]. by unfold bind, ret.
Qed.

(** Without a count, the recommendation is looked up under the level,
    announced, and used as the count. *)
Lemma randomize_default input col level w projects w1 (c : Z) :
  resolve_input input col w = (Ok projects, w1) → projects ≠ [] →
  recs_getitem (get_recommended_sample_size (Z.of_nat (length projects))) level
    = Ok (VInt c) →
  randomize_projects input None col level w =
    match select_random_projects projects c
            (World (gen w1) (stdout w1 ++ [using_line level c])) with
    | (Ok selected, w2) =>
        (Ok (selection_result projects selected
               (get_recommended_sample_size (Z.of_nat (length projects)))), w2)
    | (Raise e, w2) => (Raise e, w2)
    end.
Proof.
  intros Hload Hne Hget. unfold randomize_projects, bind at 1. rewrite Hload.
  destruct projects as [|p projects]; [done|].
  unfold bind, ret, lift, print. by rewrite Hget.
Qed.

(** X14.  For a non-empty project set and an explicit count [n], the
    result holds exactly the five keys of a selection and no ["error"]:
    the total, a selection drawn from the project set without
    replacement, its size [max(0, min(n, total))] as [selected_count],
    and the recommendations for the total.  Beyond the load step only
    the clamp warning can be printed. *)
Theorem randomize_projects_explicit_count input (n : Z) col level w projects w1 :
  resolve_input input col w = (Ok projects, w1) → projects ≠ [] →
  let N := Z.of_nat (length projects) in
  ∃ result selected g,
    randomize_projects input (Some n) col level w =
      (Ok result,
       World g (stdout w1 ++ if N <? n then [warning_line n (length projects)]
                             else [])) ∧
    dom result = selection_keys ∧
    result !! "error" = None ∧
    result !! "total_projects" = Some (VInt N) ∧
    result !! "selected_count" = Some (VInt (Z.max 0 (Z.min n N))) ∧
    result !! "selected_projects" = Some (VStrList selected) ∧
    selected ⊆+ projects ∧
    result !! "selection_percentage"
      = Some (VPercent (length selected) (length projects)) ∧
    result !! "recommendations" = Some (VRecs (get_recommended_sample_size N)).
Proof.
  intros Hload Hne N. subst N.
  rewrite (randomize_explicit input n col level w projects w1) by done.
  destruct (select_shape projects n w1) as (selected & g & -> & Hlen & Hsub & _).
  destruct (selection_result_lookup projects selected
              (get_recommended_sample_size (Z.of_nat (length projects))))
    as (Htotal & Hcount & Hsel & Hrecs & Hpct & Herr & Hdom).
  eexists _, selected, g. split; [done|].
  rewrite <- Hlen. by repeat split.
Qed.

(** X15.  With an explicit count the level plays no part: it is not even
    looked up, so any text, valid level or not, gives the same run. *)
Theorem randomize_projects_level_unused input (n : Z) col (level1 level2 : string) w :
  randomize_projects input (Some n) col level1 w
    = randomize_projects input (Some n) col level2 w.
Proof.
  unfold randomize_projects, bind.
  destruct (resolve_input input col w) as [[[|p projects]|e] w1]; done.
Qed.


Lemma tier_in_range (level : string) (N c : Z) :
  1 ≤ N → level ∈ tier_names →
  recs_getitem (get_recommended_sample_size N) level = Ok (VInt c) →
  1 ≤ c ≤ N ∧ (N ≤ 10 → c = N).
Proof.
  intros HN Hlevel Hget.
  destruct (tier_getitem (get_recommended_sample_size N) level Hlevel)
    as (c' & Hget' & Hc').
  rewrite Hget in Hget'. injection Hget' as <-.
  destruct Hc' as [[_ ->]|[[_ ->]|[_ ->]]]; unfold_buckets; lia.
Qed.

(** X16.  Without an explicit count and with one of the three tier
    names as level, a non-empty project set yields exactly the number of
    projects that tier recommends, which lies between 1 and the total:
    the selection is never empty and never clamped, and the only line
    printed beyond the load step announces the recommendation. *)
Theorem randomize_projects_default_count input col level w projects w1 :
  resolve_input input col w = (Ok projects, w1) → projects ≠ [] →
  level ∈ tier_names →
  let N := Z.of_nat (length projects) in
  ∃ c result selected g,
    recs_getitem (get_recommended_sample_size N) level = Ok (VInt c) ∧
    1 ≤ c ≤ N ∧
    randomize_projects input None col level w =
      (Ok result, World g (stdout w1 ++ [using_line level c])) ∧
    result !! "selected_count" = Some (VInt c) ∧
    result !! "selected_projects" = Some (VStrList selected) ∧
    Z.of_nat (length selected) = c ∧
    selected ⊆+ projects ∧
    result !! "error" = None.
Proof.
  intros Hload Hne Hlevel N. subst N.
  destruct (tier_getitem
              (get_recommended_sample_size (Z.of_nat (length projects)))
              level Hlevel) as (c & Hget & _).
  assert (1 ≤ Z.of_nat (length projects)) as HN
    by (destruct projects; [done | simpl; lia]).
  destruct (tier_in_range level _ c HN Hlevel Hget) as [Hc _].
  rewrite (randomize_default input col level w projects w1 c) by done.
  rewrite select_in_range by lia. cbn [gen stdout].
  set (drawn := sample projects (Z.to_nat c) (gen w1)).
  destruct (selection_result_lookup projects drawn.1
              (get_recommended_sample_size (Z.of_nat (length projects))))
    as (_ & Hcount & Hsel & _ & _ & Herr & _).
  assert (length drawn.1 = Z.to_nat c) as Hlen
    by (apply sample_length; lia).
  exists c. eexists _, drawn.1, _. split; [done|]. split; [done|].
  split; [done|]. rewrite Hcount, Hlen, Z2Nat.id by lia.
  repeat split; try done. apply sample_submseteq. lia.
Qed.

(** X17.  For a portfolio of at most ten projects the default count
    selects every project, whichever tier is named: the selection is a
    rearrangement of the project set. *)
Theorem randomize_projects_small_selects_all input col level w projects w1 :
  resolve_input input col w = (Ok projects, w1) → projects ≠ [] →
  (length projects ≤ 10)%nat → level ∈ tier_names →
  ∃ result selected w2,
    randomize_projects input None col level w = (Ok result, w2) ∧
    result !! "selected_projects" = Some (VStrList selected) ∧
    selected ≡ₚ projects ∧
    result !! "selection_percentage"
      = Some (VPercent (length projects) (length projects)).
Proof.
  intros Hload Hne Hsmall Hlevel.
  destruct (tier_getitem
              (get_recommended_sample_size (Z.of_nat (length projects)))
              level Hlevel) as (c & Hget & _).
  assert (1 ≤ Z.of_nat (length projects)) as HN
    by (destruct projects; [done | simpl; lia]).
  destruct (tier_in_range level _ c HN Hlevel Hget) as [Hc Hall].
  rewrite Hall in Hget by lia.
  rewrite (randomize_default input col level w projects w1 _) by done.
  rewrite select_in_range by lia. cbn [gen stdout]. rewrite Nat2Z.id.
  set (drawn := sample projects (length projects) (gen w1)).
  destruct (selection_result_lookup projects drawn.1
              (get_recommended_sample_size (Z.of_nat (length projects))))
    as (_ & _ & Hsel & _ & Hpct & _).
  assert (length drawn.1 = length projects) as Hlen
    by (by apply sample_length).
  eexists _, drawn.1, _. split; [done|]. split; [done|].
  split; [|by rewrite Hpct, Hlen].
  apply submseteq_length_Permutation; [by apply sample_submseteq | lia].
Qed.

(** X18.  [randomize_projects] raises in three situations only: a
    [ValueError], state untouched, when the input is neither a path nor
    a list; and, for a non-empty project set without explicit count, a
    [KeyError] when the level is no key of the recommendation
    dictionary, or a [TypeError] when it is the key ["notes"].  In
    every other case it returns a dictionary. *)
Theorem randomize_projects_raises input num col level w :
  (input = InOther →
     randomize_projects input num col level w =
       (Raise (Exn "ValueError"
          "Input must be either file path (string) or list of projects"), w)) ∧
  ((∃ e w', randomize_projects input num col level w = (Raise e, w')) ↔
     input = InOther ∨
     (num = None ∧
      (level ∉ ["total_projects"; "conservative"; "moderate"; "aggressive"]) ∧
      (∃ p rest w1, resolve_input input col w = (Ok (p :: rest), w1)))) ∧
  (∀ e w', randomize_projects input num col level w = (Raise e, w') →
     exn_class e =
       match input with
       | InOther => "ValueError"
       | _ => if decide (level = "notes") then "TypeError" else "KeyError"
       end).
Proof.
  split; [by intros ->|].
  assert (input = InOther ∨ input ≠ InOther) as [->|Hinput]
    by (destruct input; auto).
  { split; [|by intros e w' [= <- <-]].
    split; [by left | intros _; by eexists _, _]. }
  destruct (resolve_shape input col w Hinput)
    as (projects & line & Hload & _).
  assert (∀ result w2,
    randomize_projects input num col level w = (Ok result, w2) →
    (¬ ∃ e w', randomize_projects input num col level w = (Raise e, w')))
    as Hok by (intros result w2 -> (e & w' & [=])).
  destruct projects as [|p rest].
  { assert (randomize_projects input num col level w
            = (Ok error_result, World (gen w) (stdout w ++ [line]))) as Hrun
      by (unfold randomize_projects, bind; by rewrite Hload).
    split; [|by rewrite Hrun].
    split; [by intros ?%(Hok _ _ Hrun)|].
    intros [?|(_ & _ & p & rest & w1 & Hload')]; [done|]. congruence. }
  destruct num as [n|].
  { pose proof (randomize_explicit input n col level w _ _ Hload
                  ltac:(done)) as Hrun.
    destruct (select_shape (p :: rest) n (World (gen w) (stdout w ++ [line])))
      as (selected & g & Hsel & _). rewrite Hsel in Hrun.
    split; [|by rewrite Hrun].
    split; [by intros ?%(Hok _ _ Hrun)|].
    intros [?|(? & _)]; done. }
  set (recs := get_recommended_sample_size (Z.of_nat (length (p :: rest)))).
  destruct (decide (level ∈ ["total_projects"; "conservative"; "moderate";
                             "aggressive"])) as [Hkey|Hkey].
  - assert (∃ c, recs_getitem recs level = Ok (VInt c)) as [c Hget].
    { revert Hkey. rewrite !elem_of_cons, elem_of_nil.
      intros [->|[->|[->|[->|[]]]]]; by eexists. }
    pose proof (randomize_default input col level w _ _ c Hload
                  ltac:(done) Hget) as Hrun.
    destruct (select_shape (p :: rest) c
                (World (gen w) (stdout w ++ [line] ++ [using_line level c])))
      as (selected & g & Hsel & _).
    cbn [gen stdout] in Hrun. rewrite <- (assoc_L (++)), Hsel in Hrun.
    split; [|by rewrite Hrun].
    split; [by intros ?%(Hok _ _ Hrun)|].
    intros [?|(_ & ? & _)]; done.
  - assert (level ≠ "total_projects" ∧ level ≠ "conservative" ∧
            level ≠ "moderate" ∧ level ≠ "aggressive") as (H1 & H2 & H3 & H4).
    { revert Hkey. rewrite !not_elem_of_cons. tauto. }
    assert (∃ e w', randomize_projects input None col level w = (Raise e, w') ∧
              exn_class e =
                if decide (level = "notes") then "TypeError" else "KeyError")
      as (e & w' & Hrun & Hclass).
    { unfold randomize_projects, bind. rewrite Hload.
      unfold lift, print, raise, recs_getitem.
      rewrite !decide_False by done.
      destruct (decide (level = "notes")); by eexists _, _. }
    split.
    + split; [|by eauto]. intros _. right. by eauto 10.
    + intros e2 w2. rewrite Hrun. intros [= <- <-].
      by destruct input.
Qed.

(** One run of the program on any input: construct the randomizer with
    [seed], then call [randomize_projects]. *)
Definition seeded_randomize (seed : option Z) (input : input_data)
    (num : option Z) (col : option string) (level : string)
  : Py RM (gmap string value) :=
  bind (init seed) (λ _, randomize_projects input num col level).

(** X19.  With a non-zero seed a whole run, result and printed output
    alike, is the same whatever state the generator started in. *)
Theorem seeded_randomize_deterministic (a : Z) input num col level
    (g1 g2 : rng) (printed : list string) :
  a ≠ 0 →
  seeded_randomize (Some a) input num col level (World g1 printed) =
  seeded_randomize (Some a) input num col level (World g2 printed).
Proof.
  intros Ha. unfold seeded_randomize, bind.
  by rewrite !init_seeded.
Qed.

End OrchestrationMore.

(** ** The command line *)

Module CliFacts.
Import Cli.

(** The numbered lines of the report, counting from [i]. *)
Fixpoint numbered_lines (i : Z) (projects : list string) : list string :=
  match projects with
  | [] => []
  | project :: rest =>
      (format_2d i +:+ ". " +:+ project) :: numbered_lines (i + 1) rest
  end.

Section MainFacts.
Context `{RM : RandomModule} `{XR : ExcelReader} `{FT : FloatText}.
Implicit Types (w : world RM) (a : args) (t : terminal).

(** All the lines of the report for a selection, in order. *)
Definition report_lines (total : nat) (selected : list string)
    (recs : recommendations) : list string :=
  [ nl +:+ times "=" 50;
    "R&D PROJECT SELECTION RESULTS";
    times "=" 50;
    "Total Projects: " +:+ PyStr.of_int (Z.of_nat total);
    "Selected: " +:+ PyStr.of_int (Z.of_nat (length selected))
      +:+ " (" +:+ percent_text (length selected) total +:+ "%)";
    nl +:+ "Selected Projects:";
    times "-" 30 ]
  ++ numbered_lines 1 selected
  ++ [ nl +:+ times "=" 50;
       "DOCUMENTATION RECOMMENDATIONS";
       times "=" 50;
       "Conservative approach: " +:+ PyStr.of_int (conservative recs)
         +:+ " projects";
       "Moderate approach:     " +:+ PyStr.of_int (moderate recs)
         +:+ " projects";
       "Aggressive approach:   " +:+ PyStr.of_int (aggressive recs)
         +:+ " projects";
       nl +:+ "Notes:" ]
  ++ ((λ note, bullet +:+ " " +:+ note) <$> notes recs).

Lemma init_shape (s : option Z) w :
  ∃ g, init s w = (Ok (), World g (stdout w)) ∧
       (seed_truthy s = false → g = gen w).
Proof.
  unfold init. destruct (seed_truthy s) eqn:Hs.
  - destruct s as [z|]; [|done]. by eexists.
  - exists (gen w). by destruct w.
Qed.

Lemma print_numbered_run (i : Z) (projects : list string) w :
  print_numbered i projects w =
    (Ok (), World (gen w) (stdout w ++ numbered_lines i projects)).
Proof.
  revert i w. induction projects as [|p rest IH]; intros i w; simpl.
  - unfold ret. rewrite app_nil_r. by destruct w.
  - unfold bind, print. rewrite IH. simpl. by rewrite <- (assoc_L (++)).
Qed.

Lemma print_notes_run (ns : list string) w :
  print_notes ns w =
    (Ok (), World (gen w)
              (stdout w ++ ((λ note, bullet +:+ " " +:+ note) <$> ns))).
Proof.
  revert w. induction ns as [|n rest IH]; intros w; simpl.
  - unfold ret. rewrite app_nil_r. by destruct w.
  - unfold bind, print. rewrite IH. simpl. by rewrite <- (assoc_L (++)).
Qed.

(** The report of a selection dictionary never fails on a missing key or
    a value of the wrong type, and prints [report_lines]. *)
Lemma report_run (projects selected : list string) (recs : recommendations) w :
  report (selection_result projects selected recs) w =
    (Ok (), World (gen w)
              (stdout w ++ report_lines (length projects) selected recs)).
Proof.
  destruct (selection_result_lookup projects selected recs)
    as (Htotal & Hcount & Hsel & Hrecs & Hpct & _).
  unfold report, getitem. rewrite Htotal, Hcount, Hsel, Hrecs, Hpct.
  unfold bind, print, lift, ret. cbn [iterate subscript recs_getitem gen stdout].
  rewrite print_numbered_run.
  change (recs_getitem recs "conservative") with (Ok (VInt (conservative recs))).
  change (recs_getitem recs "moderate") with (Ok (VInt (moderate recs))).
  change (recs_getitem recs "aggressive") with (Ok (VInt (aggressive recs))).
  change (recs_getitem recs "notes") with (Ok (VStrList (notes recs))).
  cbn [iterate gen stdout format_field]. rewrite print_notes_run.
  cbn [gen stdout]. unfold report_lines.
  by rewrite <- !(assoc_L (++)).
Qed.


Definition enter_line : string :=
  "Enter projects one per line (press Ctrl+C when done):".

Definition processing_line (n : nat) : string :=
  nl +:+ "Processing " +:+ PyStr.of_int (Z.of_nat n) +:+ " projects...".

Definition no_projects_line : string := "Error: No projects found in input".

(** The call of [randomize_projects] that [main] makes, with what
    precedes it inside the [try]. *)
Definition collect a t : Py RM (gmap string value) :=
  if list_mode a then
    bind (print enter_line) (λ _,
      bind (read_projects t) (λ projects,
        randomize_projects (InList (SStr <$> projects)) (number a) None
          (level a)))
  else
    randomize_projects (InPath (input a)) (number a) (column a) (level a).

Lemma main_unfold a t w g :
  init (seed a) w = (Ok (), World g (stdout w)) →
  main a t w =
    match collect a t (World g (stdout w)) with
    | (Ok result, w1) =>
        match result !! "error" with
        | Some error =>
            (Ok (), World (gen w1)
                      (stdout w1 ++ ["Error: " +:+ format_field error]))
        | None =>
            match report result w1 with
            | (Ok u, w2) => (Ok u, w2)
            | (Raise e, w2) =>
                (Ok (), World (gen w2) (stdout w2 ++ ["Error: " +:+ exn_text e]))
            end
        end
    | (Raise e, w1) =>
        (Ok (), World (gen w1) (stdout w1 ++ ["Error: " +:+ exn_text e]))
    end.
Proof.
  intros Hinit.
  change (main a t w) with
    (bind (init (seed a))
       (λ _, try_except
               (bind (collect a t)
                  (λ result,
                     match result !! "error" with
                     | Some error => print ("Error: " +:+ format_field error)
                     | None => report result
                     end))
               (λ e, print ("Error: " +:+ exn_text e))) w).
  unfold bind at 1. rewrite Hinit. unfold try_except, bind at 1.
  destruct (collect a t _) as [[result|e] w1]; [|done].
  destruct (result !! "error"); [done|].
  by destruct (report result w1) as [[[]|?] ?].
Qed.

Lemma read_loop_normalize (lines projects : list string) :
  read_loop lines projects = projects ++ normalize (SStr <$> lines).
Proof.
  revert projects. induction lines as [|line lines IH]; intros projects.
  - by rewrite app_nil_r.
  - cbn [read_loop fmap list_fmap normalize str].
    destruct (PyStr.truthy (PyStr.strip line)); rewrite IH; [|done].
    by rewrite <- (assoc_L (++)).
Qed.

(** In [--list] mode with Ctrl+C, what [main] hands on. *)
Lemma collect_list a t (g : rng) (printed : list string) :
  list_mode a = true → ending t = Interrupt →
  let projects := normalize (SStr <$> typed t) in
  collect a t (World g printed) =
    randomize_projects (InList (SStr <$> projects)) (number a) None (level a)
      (World g (printed ++ [enter_line; processing_line (length projects)])).
Proof.
  intros Hlist Hend projects. unfold collect, read_projects.
  rewrite Hlist, Hend, read_loop_normalize. unfold bind, print, ret.
  cbn [gen stdout app]. by rewrite <- (assoc_L (++)).
Qed.

(** X20.  From the parsed arguments on, [main] lets no exception of
    class [Exception] escape: whatever the arguments, the file and the
    lines typed, it returns normally. *)
Theorem main_never_raises a t w : ∃ w', main a t w = (Ok (), w').
Proof.
  destruct (init_shape (seed a) w) as (g & Hinit & _).
  rewrite (main_unfold a t w g Hinit).
  destruct (collect a t _) as [[result|e] w1]; [|by eexists].
  destruct (result !! "error"); [by eexists|].
  destruct (report result w1) as [[[]|e] w2]; by eexists.
Qed.

(** X21.  In [--list] mode, when the input stream ends instead of being
    interrupted, every line typed is discarded: [main] prints the prompt
    and the text of the [EOFError], selects nothing, and consumes no
    random number. *)
Theorem main_list_end_of_file a t w :
  list_mode a = true → ending t = EndOfFile →
  ∃ g, main a t w =
         (Ok (), World g (stdout w ++
                   [enter_line; "Error: EOF when reading a line"])) ∧
       (seed_truthy (seed a) = false → g = gen w) ∧
       (seed_truthy (seed a) = true → ∃ z, seed a = Some z ∧ g = random_seed z).
Proof.
  intros Hlist Hend.
  destruct (init_shape (seed a) w) as (g & Hinit & Hkeep).
  exists g. split; [|split; [done|]].
  - rewrite (main_unfold a t w g Hinit).
    unfold collect, read_projects. rewrite Hlist, Hend.
    unfold bind, print, raise. cbn [gen stdout].
    by rewrite <- (assoc_L (++)).
  - intros Hseed. unfold init in Hinit. rewrite Hseed in Hinit.
    destruct (seed a) as [z|]; [|done]. exists z. split; [done|].
    by injection Hinit.
Qed.

(** X22.  The lines typed in [--list] mode are treated exactly like a
    list argument holding those lines: the loop keeps the stripped
    non-blank lines in order, and [randomize_projects], which strips and
    filters once more, behaves on them as on the raw lines. *)
Theorem main_list_like_list_argument (lines : list string) num col lvl w :
  read_loop lines [] = normalize (SStr <$> lines) ∧
  randomize_projects (InList (SStr <$> read_loop lines [])) num col lvl w
    = randomize_projects (InList (SStr <$> lines)) num col lvl w.
Proof.
  pose proof (read_loop_normalize lines []) as Hloop. simpl in Hloop.
  split; [done|].
  unfold randomize_projects, bind at 1 3, resolve_input.
  rewrite Hloop, normalize_normalized; [done | apply normalize_Forall].
Qed.


Lemma main_of_selection a t w g (projects selected : list string)
    (recs : recommendations) w2 :
  init (seed a) w = (Ok (), World g (stdout w)) →
  collect a t (World g (stdout w))
    = (Ok (selection_result projects selected recs), w2) →
  main a t w =
    (Ok (), World (gen w2)
              (stdout w2 ++ report_lines (length projects) selected recs)).
Proof.
  intros Hinit Hcollect. rewrite (main_unfold a t w g Hinit), Hcollect.
  destruct (selection_result_lookup projects selected recs)
    as (_ & _ & _ & _ & _ & -> & _).
  by rewrite report_run.
Qed.

Lemma main_of_error a t w g w2 :
  init (seed a) w = (Ok (), World g (stdout w)) →
  collect a t (World g (stdout w)) = (Ok error_result, w2) →
  main a t w = (Ok (), World (gen w2) (stdout w2 ++ [no_projects_line])).
Proof.
  intros Hinit Hcollect. by rewrite (main_unfold a t w g Hinit), Hcollect.
Qed.

Lemma randomize_of_empty input num col lvl w w1 :
  resolve_input input col w = (Ok [], w1) →
  randomize_projects input num col lvl w = (Ok error_result, w1).
Proof. intros Hload. unfold randomize_projects, bind. by rewrite Hload. Qed.

(** X23.  A run on a spreadsheet with an explicit count, end to end:
    after the line of the load step come the clamp warning, if the count
    exceeds the number of projects, and the report.  The report states
    the number of projects loaded and lists, numbered from 1 in the
    order drawn, a selection of [max(0, min(n, total))] projects taken
    from them without replacement, followed by the recommendations for
    that total. *)
Theorem main_spreadsheet_report a t w (n : Z) (projects : list string) w1 :
  list_mode a = false → number a = Some n →
  load_projects_from_excel (input a) (column a) (init (seed a) w).2
    = (Ok projects, w1) →
  projects ≠ [] →
  let N := Z.of_nat (length projects) in
  ∃ selected g,
    main a t w =
      (Ok (),
       World g
         (stdout w1
          ++ (if N <? n then [warning_line n (length projects)] else [])
          ++ report_lines (length projects) selected
               (get_recommended_sample_size N))) ∧
    selected ⊆+ projects ∧
    Z.of_nat (length selected) = Z.max 0 (Z.min n N).
Proof.
  intros Hmode Hnum Hload Hne N. subst N.
  destruct (init_shape (seed a) w) as (g & Hinit & _).
  rewrite Hinit in Hload. cbn [snd] in Hload.
  destruct (select_shape projects n w1) as (selected & g' & Hsel & Hlen & Hsub & _).
  exists selected, g'. split; [|done].
  rewrite (main_of_selection a t w g projects selected
             (get_recommended_sample_size (Z.of_nat (length projects)))
             (World g' (stdout w1 ++
                if Z.of_nat (length projects) <? n
                then [warning_line n (length projects)] else []))); [|done|].
  - cbn [gen stdout]. by rewrite <- (assoc_L (++)).
  - unfold collect. rewrite Hmode, Hnum.
    rewrite (randomize_explicit (InPath (input a)) n (column a) (level a)
               _ projects w1) by done.
    by rewrite Hsel.
Qed.

(** X24.  An interactive run with the default count, end to end: once
    the operator interrupts, the non-blank lines typed are the project
    set; the tier's recommended count of them is selected, and the
    output is the prompt, the two count lines, the announcement of the
    recommendation and the report, with no warning. *)
Theorem main_interactive_report a t w :
  list_mode a = true → ending t = Interrupt → number a = None →
  level a ∈ tier_names →
  let projects := normalize (SStr <$> typed t) in
  projects ≠ [] →
  ∃ c selected g,
    recs_getitem (get_recommended_sample_size (Z.of_nat (length projects)))
      (level a) = Ok (VInt c) ∧
    main a t w =
      (Ok (),
       World g
         (stdout w
          ++ [enter_line; processing_line (length projects);
              provided_line (length projects); using_line (level a) c]
          ++ report_lines (length projects) selected
               (get_recommended_sample_size (Z.of_nat (length projects))))) ∧
    selected ⊆+ projects ∧
    Z.of_nat (length selected) = c.
Proof.
  intros Hmode Hend Hnum Hlevel projects Hne.
  destruct (init_shape (seed a) w) as (g & Hinit & _).
  destruct (tier_getitem
              (get_recommended_sample_size (Z.of_nat (length projects)))
              (level a) Hlevel) as (c & Hget & _).
  assert (1 ≤ Z.of_nat (length projects)) as HN
    by (destruct projects; [done | simpl; lia]).
  destruct (tier_in_range (level a) _ c HN Hlevel Hget) as [Hc _].
  set (w1 := World g (stdout w ++ [enter_line; processing_line (length projects);
                                   provided_line (length projects)])).
  assert (resolve_input (InList (SStr <$> projects)) None
            (World g (stdout w ++ [enter_line; processing_line (length projects)]))
          = (Ok projects, w1)) as Hload.
  { unfold resolve_input, bind, print, ret. cbn [gen stdout].
    rewrite normalize_normalized by apply normalize_Forall.
    subst w1. by rewrite <- (assoc_L (++)). }
  set (drawn := sample projects (Z.to_nat c) g).
  exists c, drawn.1, drawn.2. split; [done|].
  split; [|split; [apply sample_submseteq; lia|]].
  - rewrite (main_of_selection a t w g projects drawn.1
               (get_recommended_sample_size (Z.of_nat (length projects)))
               (World drawn.2 (stdout w1 ++ [using_line (level a) c]))); [|done|].
    + subst w1. cbn [gen stdout]. by rewrite <- !(assoc_L (++)).
    + rewrite (collect_list a t g (stdout w) Hmode Hend). fold projects.
      rewrite Hnum.
      rewrite (randomize_default _ None (level a) _ projects w1 c) by done.
      by rewrite select_in_range by (cbn [gen stdout]; lia).
  - subst drawn. rewrite sample_length by lia. lia.
Qed.

(** X25.  When no project is found, [main] prints
    ["Error: No projects found in input"] after the lines of the load
    step and stops: no report, and no random number consumed.  This is
    what happens for a spreadsheet that cannot be loaded or has only
    blank cells, and for an interactive run in which only blank lines
    were typed. *)
Theorem main_no_projects a t w :
  (list_mode a = false →
   ∀ w1, load_projects_from_excel (input a) (column a) (init (seed a) w).2
           = (Ok [], w1) →
         main a t w = (Ok (), World (gen (init (seed a) w).2)
                                (stdout w1 ++ [no_projects_line]))) ∧
  (list_mode a = true → ending t = Interrupt →
   normalize (SStr <$> typed t) = [] →
   main a t w = (Ok (), World (gen (init (seed a) w).2)
                          (stdout w ++ [enter_line; processing_line 0;
                                        provided_line 0; no_projects_line]))).
Proof.
  destruct (init_shape (seed a) w) as (g & Hinit & _).
  rewrite Hinit. cbn [snd gen]. split.
  - intros Hmode w1 Hload.
    rewrite (main_of_error a t w g w1 Hinit).
    + pose proof (load_gen (input a) (column a) (World g (stdout w))) as Hgen.
      rewrite Hload in Hgen. simpl in Hgen. by rewrite Hgen.
    + unfold collect. rewrite Hmode. by apply randomize_of_empty.
  - intros Hmode Hend Hblank.
    rewrite (main_of_error a t w g
               (World g (stdout w ++ [enter_line; processing_line 0;
                                      provided_line 0])) Hinit).
    + cbn [gen stdout]. by rewrite <- (assoc_L (++)).
    + rewrite (collect_list a t g (stdout w) Hmode Hend), Hblank.
      apply randomize_of_empty. unfold resolve_input, bind, print, ret.
      cbn [gen stdout fmap list_fmap normalize length].
      by rewrite <- (assoc_L (++)).
Qed.

End MainFacts.
End CliFacts.

(** ** The further properties at concrete inputs *)

(** IEEE 754 binary64 arithmetic, as far as the percentage needs it. *)
Module Float64.

(** [p / q] rounded to the nearest integer, ties to the even one
    ([0 <= p], [0 < q]). *)
Definition nearest_even (p q : Z) : Z :=
  let f := p / q in
  let r := p mod q in
  if 2 * r <? q then f
  else if q <? 2 * r then f + 1
  else if Z.even f then f else f + 1.

(** The double nearest to [p / q], as a fraction ([0 < p], [0 < q], the
    quotient within the range of normal doubles): a 53-bit significand
    [m] and an exponent [e], the value being [m * 2^e]. *)
Definition nearest_double (p q : Z) : Z * Z :=
  let e0 := Z.log2 p - Z.log2 q - 52 in
  let e := if (if 0 <=? e0 then p else p * 2 ^ (- e0))
              <? 2 ^ 52 * (if 0 <=? e0 then q * 2 ^ e0 else q)
           then e0 - 1 else e0 in
  let m := if 0 <=? e then nearest_even p (q * 2 ^ e)
           else nearest_even (p * 2 ^ (- e)) q in
  if 0 <=? e then (m * 2 ^ e, 1) else (m, 2 ^ (- e)).

(** [f"{round(selected / total * 100, 1)}"] for [0 <= selected] and
    [1 <= total], the percentage staying below [1e16]: the quotient and
    the product are each rounded to a double, [round] takes the exact
    value of the product to the nearest tenth, ties to even, and the
    result prints with one decimal. *)
Definition percent_of (selected total : Z) : string :=
  let quotient :=
    if selected =? 0 then (0, 1) else nearest_double selected total in
  let product :=
    if quotient.1 =? 0 then (0, 1)
    else nearest_double (100 * quotient.1) quotient.2 in
  let tenths := nearest_even (10 * product.1) product.2 in
  PyStr.of_int (tenths / 10) +:+ "." +:+ PyStr.of_int (tenths mod 10).

End Float64.

#[export] Instance reference_float : FloatText := {|
  percent_text selected total :=
    Float64.percent_of (Z.of_nat selected) (Z.of_nat total)
|}.

(** One selected of sixteen is 6.25 percent, a tie that [round] resolves
    to the even tenth; one of three is 33.3, two of three 66.7. *)
Example percent_text_values :
  percent_text 1 16 = "6.2" ∧ percent_text 3 16 = "18.8" ∧
  percent_text 1 3 = "33.3" ∧ percent_text 2 3 = "66.7" ∧
  percent_text 0 7 = "0.0" ∧ percent_text 10 10 = "100.0".
Proof. by vm_compute. Qed.

(** A reader for which every file holds a sheet without columns. *)
Definition blank_excel : ExcelReader := {| read_excel := λ _, Ok [] |}.

(** The state of a process whose generator is in state [g] and which has
    printed [printed]. *)
Definition booted (g : N) (printed : list string) : world reference_random :=
  @World reference_random g printed.

Definition as_list (names : list string) : input_data := InList (SStr <$> names).

Lemma recommendations_monotone_witness :
  conservative (get_recommended_sample_size 12)
    ≤ conservative (get_recommended_sample_size 30) ∧
  moderate (get_recommended_sample_size 12)
    ≤ moderate (get_recommended_sample_size 30) ∧
  aggressive (get_recommended_sample_size 12)
    ≤ aggressive (get_recommended_sample_size 30) ∧
  aggressive (get_recommended_sample_size 11)
    < aggressive (get_recommended_sample_size 10).
Proof.
  destruct (recommendations_monotone 12 30 ltac:(lia)) as (Hc & Hm & Ha & Hd).
  split; [exact Hc|]. split; [exact Hm|]. split; [|exact Hd].
  apply Ha. right. lia.
Defined.

Lemma recommendations_bounds_witness :
  let r := get_recommended_sample_size 1 in
  1 ≤ aggressive r ≤ 30 ∧ 1 ≤ moderate r ≤ 50 ∧ 1 ≤ conservative r ≤ 75.
Proof. apply (recommendations_bounds 1). lia. Defined.

Lemma recommendations_constant_from_26_witness :
  tiers (get_recommended_sample_size 26) = (25, 18, 12).
Proof. apply (recommendations_constant_from_26 26). lia. Defined.

Lemma select_random_projects_no_draw_witness :
  (∃ w', select_random_projects five_projects (-2) (boot 7) = (Ok [], w') ∧
         gen w' = gen (boot 7)) ∧
  (∃ w', select_random_projects [] 4 (boot 7) = (Ok [], w') ∧
         gen w' = gen (boot 7)).
Proof.
  split.
  - apply (select_random_projects_no_draw five_projects (-2) (boot 7)).
    left. lia.
  - apply (select_random_projects_no_draw [] 4 (boot 7)). by right.
Defined.

Lemma seeded_run_replays_witness :
  ∃ out w1 w2,
    seeded_run (Some 42) five_projects 3 (boot 7) = (Ok out, w1) ∧
    seeded_run (Some 42) five_projects 3 w1 = (Ok out, w2).
Proof. apply (seeded_run_replays 42 five_projects 3 (boot 7)). lia. Defined.

Lemma load_projects_from_excel_named_witness :
  load_projects_from_excel "projects.xlsx" (Some "Owner") (boot 7) =
    (Ok ["Ann"; "Bob"; "Cy"], booted 7 [loaded_line 3]).
Proof.
  apply (load_projects_from_excel_named "projects.xlsx" (boot 7)
           [("Project", [SStr "Alpha"; SNaN; SStr " Beta "; SInt 7])] []
           "Owner" [SStr "Ann"; SStr "Bob"; SNone; SStr "Cy"]).
  - reflexivity.
  - done.
  - apply (bool_decide_unpack _). by vm_compute.
  - apply not_elem_of_nil.
Defined.

Lemma load_projects_from_excel_first_column_witness :
  load_projects_from_excel "projects.xlsx" (Some "") (boot 7) =
    (Ok ["Alpha"; "Beta"; "7"], booted 7 [loaded_line 3]) ∧
  ∃ e, load_projects_from_excel (XR := blank_excel) "any.xlsx" None (boot 7) =
         (Ok [], booted 7 [error_line (exn_text e)]).
Proof.
  split.
  - apply (proj1 (load_projects_from_excel_first_column
                    "projects.xlsx" (Some "") (boot 7) (or_intror eq_refl))
             "Project" [SStr "Alpha"; SNaN; SStr " Beta "; SInt 7]
             [("Owner", [SStr "Ann"; SStr "Bob"; SNone; SStr "Cy"])]).
    reflexivity.
  - apply (proj2 (load_projects_from_excel_first_column (XR := blank_excel)
                    "any.xlsx" None (boot 7) (or_introl eq_refl))).
    reflexivity.
Defined.

Lemma randomize_projects_explicit_count_witness :
  ∃ result selected g,
    randomize_projects (as_list five_projects) (Some 9) None "moderate" (boot 7) =
      (Ok result,
       World g ([provided_line 5] ++ [warning_line 9 5])) ∧
    dom result = selection_keys ∧
    result !! "error" = None ∧
    result !! "total_projects" = Some (VInt 5) ∧
    result !! "selected_count" = Some (VInt 5) ∧
    result !! "selected_projects" = Some (VStrList selected) ∧
    selected ⊆+ five_projects ∧
    result !! "selection_percentage" = Some (VPercent (length selected) 5) ∧
    result !! "recommendations" = Some (VRecs (get_recommended_sample_size 5)).
Proof.
  apply (randomize_projects_explicit_count (as_list five_projects) 9 None
           "moderate" (boot 7) five_projects
           (booted 7 [provided_line 5])).
  - reflexivity.
  - done.
Defined.

Lemma randomize_projects_default_count_witness :
  ∃ c result selected g,
    recs_getitem (get_recommended_sample_size 5) "aggressive" = Ok (VInt c) ∧
    1 ≤ c ≤ 5 ∧
    randomize_projects (as_list five_projects) None None "aggressive" (boot 7) =
      (Ok result, World g ([provided_line 5] ++ [using_line "aggressive" c])) ∧
    result !! "selected_count" = Some (VInt c) ∧
    result !! "selected_projects" = Some (VStrList selected) ∧
    Z.of_nat (length selected) = c ∧
    selected ⊆+ five_projects ∧
    result !! "error" = None.
Proof.
  apply (randomize_projects_default_count (as_list five_projects) None
           "aggressive" (boot 7) five_projects
           (booted 7 [provided_line 5])).
  - reflexivity.
  - done.
  - apply (bool_decide_unpack _). by vm_compute.
Defined.

Lemma randomize_projects_small_selects_all_witness :
  ∃ result selected w2,
    randomize_projects (as_list five_projects) None None "aggressive" (boot 7)
      = (Ok result, w2) ∧
    result !! "selected_projects" = Some (VStrList selected) ∧
    selected ≡ₚ five_projects ∧
    result !! "selection_percentage" = Some (VPercent 5 5).
Proof.
  apply (randomize_projects_small_selects_all (as_list five_projects) None
           "aggressive" (boot 7) five_projects
           (booted 7 [provided_line 5])).
  - reflexivity.
  - done.
  - simpl. lia.
  - apply (bool_decide_unpack _). by vm_compute.
Defined.

Lemma randomize_projects_raises_witness :
  randomize_projects InOther (Some 3) None "moderate" (boot 7) =
    (Raise (Exn "ValueError"
       "Input must be either file path (string) or list of projects"), boot 7).
Proof.
  apply (proj1 (randomize_projects_raises InOther (Some 3) None "moderate"
                  (boot 7))).
  reflexivity.
Defined.

Lemma seeded_randomize_deterministic_witness :
  seeded_randomize (Some 42) (as_list five_projects) (Some 2) None "moderate"
    (booted 7 []) =
  seeded_randomize (Some 42) (as_list five_projects) (Some 2) None "moderate"
    (booted 8 []).
Proof.
  apply (seeded_randomize_deterministic (RM := reference_random) 42
           (as_list five_projects) (Some 2) None "moderate" 7%N 8%N []).
  lia.
Defined.

Definition interactive_args (count : option Z) : Cli.args :=
  Cli.Args "" count None "moderate" (Some 42) true.

Definition spreadsheet_args (count : option Z) (col : option string) : Cli.args :=
  Cli.Args "projects.xlsx" count col "moderate" (Some 42) false.

Definition typed_lines : list string := ["  Apollo "; ""; "Borealis"; "   "].

Lemma main_list_end_of_file_witness :
  ∃ g, Cli.main (interactive_args None)
         (Cli.Terminal typed_lines Cli.EndOfFile) (boot 7) =
         (Ok (), World g ([] ++ [CliFacts.enter_line;
                                 "Error: EOF when reading a line"])) ∧
       (seed_truthy (Some 42) = false → g = 7%N) ∧
       (seed_truthy (Some 42) = true →
        ∃ z, Some 42 = Some z ∧ g = random_seed z).
Proof.
  apply (CliFacts.main_list_end_of_file (interactive_args None)
           (Cli.Terminal typed_lines Cli.EndOfFile) (boot 7));
    reflexivity.
Defined.

Lemma main_spreadsheet_report_witness :
  ∃ selected g,
    Cli.main (spreadsheet_args (Some 2) (Some "Project"))
      (Cli.Terminal [] Cli.EndOfFile) (boot 7) =
      (Ok (),
       World g
         ([loaded_line 3] ++ [] ++
          CliFacts.report_lines 3 selected (get_recommended_sample_size 3))) ∧
    selected ⊆+ ["Alpha"; "Beta"; "7"] ∧
    Z.of_nat (length selected) = 2.
Proof.
  apply (CliFacts.main_spreadsheet_report
           (spreadsheet_args (Some 2) (Some "Project"))
           (Cli.Terminal [] Cli.EndOfFile) (boot 7) 2 ["Alpha"; "Beta"; "7"]
           (booted 42 [loaded_line 3]));
    [reflexivity | reflexivity | reflexivity | done].
Defined.

Lemma main_interactive_report_witness :
  ∃ c selected g,
    recs_getitem (get_recommended_sample_size 2) "moderate" = Ok (VInt c) ∧
    Cli.main (interactive_args None)
      (Cli.Terminal typed_lines Cli.Interrupt) (boot 7) =
      (Ok (),
       World g
         ([] ++ [CliFacts.enter_line; CliFacts.processing_line 2;
                 provided_line 2; using_line "moderate" c]
          ++ CliFacts.report_lines 2 selected (get_recommended_sample_size 2))) ∧
    selected ⊆+ ["Apollo"; "Borealis"] ∧
    Z.of_nat (length selected) = c.
Proof.
  apply (CliFacts.main_interactive_report (interactive_args None)
           (Cli.Terminal typed_lines Cli.Interrupt) (boot 7));
    [reflexivity | reflexivity | reflexivity | | done].
  apply (bool_decide_unpack _). by vm_compute.
Defined.

Lemma main_no_projects_witness :
  Cli.main (spreadsheet_args None (Some "Budget"))
    (Cli.Terminal [] Cli.EndOfFile) (boot 7) =
    (Ok (), booted 42
              ([error_line (missing_column_text "Budget")]
               ++ [CliFacts.no_projects_line])) ∧
  Cli.main (interactive_args None)
    (Cli.Terminal [""; "   "] Cli.Interrupt) (boot 7) =
    (Ok (), booted 42
              ([] ++ [CliFacts.enter_line; CliFacts.processing_line 0;
                      provided_line 0; CliFacts.no_projects_line])).
Proof.
  split.
  - apply (proj1 (CliFacts.main_no_projects
                    (spreadsheet_args None (Some "Budget"))
                    (Cli.Terminal [] Cli.EndOfFile) (boot 7)) eq_refl
             (booted 42 [error_line (missing_column_text "Budget")])).
    reflexivity.
  - apply (proj2 (CliFacts.main_no_projects (interactive_args None)
                    (Cli.Terminal [""; "   "] Cli.Interrupt) (boot 7)));
      reflexivity.
Defined.
